(** * Invoice data access (app/lib/data.ts): a shallow embedding

    The module under study is a set of eight asynchronous query functions
    over three tables ([revenue], [invoices], [customers]).  Every function
    awaits one or more SQL statements inside a [try] block, shapes the rows
    and, in the [catch] arm, logs the storage error and throws a fresh
    [Error] with a fixed message.

    The embedding has three layers:
    - the store: tables as lists of records, and the SQL statements of the
      source evaluated over them (joins, [ILIKE], [ORDER BY], [LIMIT],
      [OFFSET], [COUNT], [SUM]); what SQL leaves open, the order of rows
      with equal sort keys and the order in which concurrent statements
      settle, is a component of the store;
    - the JavaScript glue: [Number], [Math.ceil], [??], [Number.isFinite],
      [try]/[catch], [console.error] as a small logging-and-exception monad;
    - the eight exported functions, written down statement by statement. *)

From Stdlib Require Import List String Ascii Bool Arith ZArith QArith Qround Lia.
From Stdlib Require Import Permutation Sorted.
From Stdlib Require Import DecimalString DecimalZ.
Import ListNotations.

Local Open Scope string_scope.
Local Open Scope Z_scope.

(* ================================================================== *)
(** ** Text helpers *)
(* ================================================================== *)

Module Text.

(** Case folding used by [ILIKE]: the ASCII letters [A]..[Z] are mapped to
    [a]..[z], every other character is left alone. *)
Definition lower (c : ascii) : ascii :=
  let n := nat_of_ascii c in
  if (65 <=? n)%nat && (n <=? 90)%nat then ascii_of_nat (n + 32) else c.

Definition chars (s : string) : list ascii := list_ascii_of_string s.

Definition fold_case (s : list ascii) : list ascii := map lower s.

(** Decimal rendering of an integer, as the store's [::text] cast and its
    [bigint] results have it: ["0"], ["15795"], ["-3"]. *)
Definition decimal (z : Z) : string := NilZero.string_of_int (Z.to_int z).

(** Two-digit and four-digit zero padding for calendar fields. *)
Definition pad (width : nat) (n : nat) : string :=
  let s := decimal (Z.of_nat n) in
  String.concat "" (repeat "0" (width - String.length s)) ++ s.

End Text.

(* ================================================================== *)
(** ** The ILIKE operator *)
(* ================================================================== *)

Module Like.

(** A compiled pattern: [%] matches any run of characters, [_] exactly one
    character, anything else itself; a backslash makes the next character
    literal. *)
Inductive token : Type :=
  | AnyRun
  | AnyChar
  | Lit (c : ascii).

(** Compilation fails on a pattern that ends in an unpaired backslash (the
    store reports "LIKE pattern must not end with escape character"). *)
Fixpoint compile (p : list ascii) : option (list token) :=
  match p with
  | [] => Some []
  | c :: rest =>
      if Ascii.eqb c "\" then
        match rest with
        | [] => None
        | d :: rest' => option_map (cons (Lit d)) (compile rest')
        end
      else if Ascii.eqb c "%" then option_map (cons AnyRun) (compile rest)
      else if Ascii.eqb c "_" then option_map (cons AnyChar) (compile rest)
      else option_map (cons (Lit c)) (compile rest)
  end.

(** Case-insensitive matching of a whole subject against a compiled
    pattern. *)
Fixpoint matches (p : list token) (s : list ascii) {struct p} : bool :=
  match p with
  | [] => match s with [] => true | _ :: _ => false end
  | AnyRun :: p' =>
      (fix skip (s : list ascii) : bool :=
         matches p' s || match s with [] => false | _ :: s' => skip s' end) s
  | AnyChar :: p' =>
      match s with [] => false | _ :: s' => matches p' s' end
  | Lit c :: p' =>
      match s with
      | [] => false
      | d :: s' => Ascii.eqb (Text.lower c) (Text.lower d) && matches p' s'
      end
  end.

End Like.

(* ================================================================== *)
(** ** Data model: the tables and the row types of data.ts *)
(* ================================================================== *)

(** [status: 'paid' | 'pending' | 'canceled'] *)
Inductive Status : Type := paid | pending | canceled.

Definition status_text (s : Status) : string :=
  match s with
  | paid => "paid"
  | pending => "pending"
  | canceled => "canceled"
  end.

Definition Status_eqb (a b : Status) : bool :=
  match a, b with
  | paid, paid | pending, pending | canceled, canceled => true
  | _, _ => false
  end.

(** A calendar date of the [invoices.date] column. *)
Record Date : Type := mkDate { d_year : nat; d_month : nat; d_day : nat }.

(** [invoices.date::text], in the store's ISO rendering [YYYY-MM-DD]. *)
Definition date_text (d : Date) : string :=
  Text.pad 4 (d_year d) ++ "-" ++ Text.pad 2 (d_month d) ++ "-"
  ++ Text.pad 2 (d_day d).

(** Chronological order on dates. *)
Definition date_leb (a b : Date) : bool :=
  if (d_year a <? d_year b)%nat then true
  else if (d_year b <? d_year a)%nat then false
  else if (d_month a <? d_month b)%nat then true
  else if (d_month b <? d_month a)%nat then false
  else (d_day a <=? d_day b)%nat.

(** [export type Revenue = { month: string; revenue: number }] *)
Record Revenue : Type := mkRevenue { month : string; revenue : Z }.

(** A row of [invoices(id, customer_id, amount, date, status)]; [amount] is
    an integer number of cents. *)
Record Invoice : Type := mkInvoice {
  invoice_id : string;
  customer_id : string;
  amount : Z;
  date : Date;
  status : Status
}.

(** A row of [customers(id, name, email, image_url)]. *)
Record Customer : Type := mkCustomer {
  id : string;
  name : string;
  email : string;
  image_url : option string
}.

Record Database : Type := mkDatabase {
  revenue_table : list Revenue;
  invoices_table : list Invoice;
  customers_table : list Customer
}.

(** [LatestInvoiceRaw], and the shape [fetchLatestInvoices] returns, whose
    [amount] is the formatted string. *)
Record LatestInvoiceRaw : Type := mkLatestInvoiceRaw {
  lr_id : string;
  lr_name : string;
  lr_email : string;
  lr_image_url : option string;
  lr_amount : Z
}.

Record LatestInvoice : Type := mkLatestInvoice {
  li_id : string;
  li_name : string;
  li_email : string;
  li_image_url : option string;
  li_amount : string
}.

(** [InvoicesTable] *)
Record InvoicesTable : Type := mkInvoicesTable {
  it_id : string;
  it_amount : Z;
  it_date : Date;
  it_status : Status;
  it_name : string;
  it_email : string;
  it_image_url : option string
}.

(** [CustomerField] *)
Record CustomerField : Type := mkCustomerField {
  cf_id : string;
  cf_name : string
}.

(** A column value as the client hands it to JavaScript. *)
Inductive JsValue : Type :=
  | JsNull
  | JsString (s : string)
  | JsNumber (z : Z).

(** The client's reading of a [bigint], the type of [SUM] over the integer
    [amount] column: its decimal text, and [null] for [NULL]. *)
Definition bigint_value (v : option Z) : JsValue :=
  match v with
  | Some z => JsString (Text.decimal z)
  | None => JsNull
  end.

(** [CustomersTableType] as the client yields it.  The two sums are tested
    by [Number.isFinite] in [fetchFilteredCustomers], so they are kept as
    the JavaScript values they are; [total_invoices], which the function
    passes on untouched, is kept as the number its text denotes. *)
Record CustomersTableRaw : Type := mkCustomersTableRaw {
  cr_id : string;
  cr_name : string;
  cr_email : string;
  cr_image_url : option string;
  cr_total_invoices : Z;
  cr_total_pending : JsValue;
  cr_total_paid : JsValue
}.

(** What [fetchFilteredCustomers] returns after formatting the sums. *)
Record CustomersTableType : Type := mkCustomersTableType {
  ct_id : string;
  ct_name : string;
  ct_email : string;
  ct_image_url : option string;
  ct_total_invoices : Z;
  ct_total_pending : string;
  ct_total_paid : string
}.

(* ================================================================== *)
(** ** JavaScript values and control *)
(* ================================================================== *)

(** A JavaScript number computed by the module: a rational (binary64
    rounding is abstracted away) or [NaN]. *)
Inductive number : Type :=
  | Finite (q : Q)
  | NaN.

Definition of_int (z : Z) : number := Finite (inject_Z z).

(** [Number.MAX_SAFE_INTEGER]: up to it the arithmetic of JavaScript on
    integers is exact, as it is in this embedding throughout. *)
Definition MAX_SAFE_INTEGER : Z := 2 ^ 53 - 1.

(** [a / b].  The source divides by the positive constants 6 and 100 only;
    a zero divisor, for which JavaScript yields an infinity, is mapped to
    [NaN]. *)
Definition number_div (a b : number) : number :=
  match a, b with
  | Finite x, Finite y => if Qeq_bool y 0 then NaN else Finite (x / y)
  | _, _ => NaN
  end.

(** [Math.ceil] *)
Definition Math_ceil (a : number) : number :=
  match a with
  | Finite x => of_int (Qceiling x)
  | NaN => NaN
  end.

(** [Number(v)] for [v] a string or a number.  On strings: the empty string
    is 0, a run of decimal digits, with a minus sign or without, is its
    value, anything else is [NaN] (the other literal forms of JavaScript
    never reach this module, whose only string operands are [COUNT]
    results). *)
Definition Number (v : string + number) : number :=
  match v with
  | inr n => n
  | inl "" => of_int 0
  | inl s =>
      match NilZero.int_of_string s with
      | Some d => of_int (Z.of_int d)
      | None => NaN
      end
  end.

(** [rows[0]?.field]: [undefined] when there is no first row.  For a
    nullable column, [null] and [undefined] are both [None]: the operator
    [??], the only consumer, does not tell them apart. *)
Definition first_field {R A : Type} (rows : list R) (field : R -> A)
    : option A :=
  match rows with
  | [] => None
  | r :: _ => Some (field r)
  end.

Definition first_nullable {R A : Type} (rows : list R)
    (field : R -> option A) : option A :=
  match rows with
  | [] => None
  | r :: _ => field r
  end.

(** [v ?? fallback] *)
Definition nullish {A : Type} (v : option A) (fallback : A) : A :=
  match v with
  | Some a => a
  | None => fallback
  end.

(** What a [throw] carries: either the storage client's own error, with its
    detail, or an [Error] object built by this module from a message. *)
Inductive Thrown : Type :=
  | StorageError (detail : string)
  | Error (message : string).

(** One [console.error(tag, error)] line. *)
Definition LogLine : Type := (string * Thrown)%type.

(** An awaited computation: it appends to the console and either returns or
    throws. *)
Definition Async (A : Type) : Type :=
  list LogLine -> list LogLine * (Thrown + A).

Definition ret {A : Type} (a : A) : Async A := fun log => (log, inr a).

Definition throw {A : Type} (e : Thrown) : Async A := fun log => (log, inl e).

Definition bind {A B : Type} (m : Async A) (k : A -> Async B) : Async B :=
  fun log =>
    match m log with
    | (log', inr a) => k a log'
    | (log', inl e) => (log', inl e)
    end.

Definition console_error (tag : string) (e : Thrown) : Async unit :=
  fun log => ((log ++ [(tag, e)])%list, inr tt).

(** [try { body } catch (error) { handler error }] *)
Definition try_catch {A : Type} (body : Async A) (handler : Thrown -> Async A)
    : Async A :=
  fun log =>
    match body log with
    | (log', inr a) => (log', inr a)
    | (log', inl e) => handler e log'
    end.

(** Awaiting a settled query: a rejected promise throws the storage error. *)
Definition await {A : Type} (settled : string + A) : Async A :=
  match settled with
  | inl detail => throw (StorageError detail)
  | inr a => ret a
  end.

(** Of two rejections, the one that came first; [t] is the time at which
    a promise settles. *)
Definition earlier (x y : nat * string) : nat * string :=
  if (fst y <? fst x)%nat then y else x.

(** [await Promise.all([p1, p2, p3])]: all three results, or the rejection
    of the promise that failed first in time. *)
Definition await_all3 {A B C : Type} (t1 : nat) (p1 : string + A) (t2 : nat)
    (p2 : string + B) (t3 : nat) (p3 : string + C) : Async (A * B * C) :=
  match p1, p2, p3 with
  | inr a, inr b, inr c => ret (a, b, c)
  | inl e1, inr _, inr _ => throw (StorageError e1)
  | inr _, inl e2, inr _ => throw (StorageError e2)
  | inr _, inr _, inl e3 => throw (StorageError e3)
  | inl e1, inl e2, inr _ =>
      throw (StorageError (snd (earlier (t1, e1) (t2, e2))))
  | inl e1, inr _, inl e3 =>
      throw (StorageError (snd (earlier (t1, e1) (t3, e3))))
  | inr _, inl e2, inl e3 =>
      throw (StorageError (snd (earlier (t2, e2) (t3, e3))))
  | inl e1, inl e2, inl e3 =>
      throw (StorageError
               (snd (earlier (earlier (t1, e1) (t2, e2)) (t3, e3))))
  end.

Declare Scope async_scope.
Delimit Scope async_scope with async.
Notation "x <- m ;; k" := (bind m (fun x => k))
  (at level 61, m at next level, right associativity) : async_scope.
Notation "m ;;; k" := (bind m (fun _ => k))
  (at level 61, right associativity) : async_scope.

(** Running a call from an empty console. *)
Definition run {A : Type} (m : Async A) : list LogLine * (Thrown + A) := m [].

(* ================================================================== *)
(** ** The store and the SQL statements of data.ts *)
(* ================================================================== *)

Module Sql.

(** Sorting: a stable insertion sort; [before x y] says that [x] may
    stand in front of [y].  Rows neither of which has to stand before the
    other keep the order they come in. *)
Fixpoint insert {A : Type} (before : A -> A -> bool) (x : A) (l : list A)
    : list A :=
  match l with
  | [] => [x]
  | y :: l' => if before x y then x :: l else y :: insert before x l'
  end.

Definition order_by {A : Type} (before : A -> A -> bool) (l : list A)
    : list A :=
  fold_right (insert before) [] l.

(** [ORDER BY] as the store runs it.  SQL does not say in which order rows
    with equal sort keys come; the store decides, through the rank it gives
    to each row position: of two rows neither of which has to stand before
    the other, the one of lower rank comes first. *)
Definition tie_before {A : Type} (before : A -> A -> bool)
    (rank : nat -> nat) (x y : nat * A) : bool :=
  if before (snd x) (snd y)
  then if before (snd y) (snd x)
       then (rank (fst x) <=? rank (fst y))%nat
       else true
  else false.

Definition order_by_ties {A : Type} (before : A -> A -> bool)
    (rank : nat -> nat) (l : list A) : list A :=
  map snd
    (order_by (tie_before before rank)
       (combine (seq 0 (List.length l)) l)).

(** The largest [bigint], the type of the [OFFSET] parameter. *)
Definition BIGINT_MAX : Z := 2 ^ 63 - 1.

(** [LIMIT n OFFSET k]; the store rejects a negative offset and one that
    is not a [bigint]. *)
Definition limit_offset {A : Type} (n : nat) (k : Z) (l : list A)
    : string + list A :=
  if k <? 0 then inl "OFFSET must not be negative"
  else if BIGINT_MAX <? k then inl "value out of range for type bigint"
  else inr (firstn n (skipn (Z.to_nat k) l)).

(** [SUM(e)]: [NULL] inputs are skipped; the sum of no input is [NULL]. *)
Fixpoint sum (l : list (option Z)) : option Z :=
  match l with
  | [] => None
  | None :: l' => sum l'
  | Some z :: l' =>
      match sum l' with
      | None => Some z
      | Some t => Some (z + t)
      end
  end.

(** [x ILIKE pattern] on a non-null text [x]. *)
Definition ilike (x : string) (pattern : list Like.token) : bool :=
  Like.matches pattern (Text.chars x).

(** Compiling the bound pattern parameter. *)
Definition pattern (like : string) : string + list Like.token :=
  match Like.compile (Text.chars like) with
  | Some p => inr p
  | None => inl "LIKE pattern must not end with escape character"
  end.

End Sql.

(** The result row of [SELECT COUNT( * )]: a [bigint], which the client
    hands over as a decimal string ([sql<{ count: string }>]). *)
Record CountRow : Type := mkCountRow { count : string }.

(** The result row of the two conditional sums of [fetchCardData]
    ([sql<{ paid: number | null; pending: number | null }>]).  The only
    consumer of a sum is [formatCurrency], which reads its argument as a
    number; the sum is kept as that number. *)
Record StatusSums : Type := mkStatusSums {
  sums_paid : option Z;
  sums_pending : option Z
}.

(** [InvoiceForm] as selected, and as returned (its [amount] divided). *)
Record InvoiceFormRow : Type := mkInvoiceFormRow {
  fr_id : string;
  fr_customer_id : string;
  fr_amount : Z;
  fr_status : Status
}.

Record InvoiceForm : Type := mkInvoiceForm {
  if_id : string;
  if_customer_id : string;
  if_amount : number;
  if_status : Status
}.

(** The ten SQL statements of the module, in source order. *)
Inductive Statement : Type :=
  | SelectRevenue
  | SelectLatestInvoices
  | CountInvoices
  | CountCustomers
  | SumByStatus
  | SelectFilteredInvoices
  | CountFilteredInvoices
  | SelectInvoiceById
  | SelectCustomers
  | SelectFilteredCustomers.

(** The store behind the [sql] client: the tables; for each statement
    whether the storage layer fails on it (connection loss, time-out, ...)
    and with which detail; for each statement and [OFFSET] window (0 where
    there is none) the rank that decides the order of rows with equal sort
    keys; and the time each statement takes to settle. *)
Record Store : Type := mkStore {
  tables : Database;
  fault : Statement -> option string;
  ties : Statement -> Z -> nat -> nat;
  latency : Statement -> nat
}.

(** The promise a tagged template [sql`...`] settles to. *)
Definition sql {R : Type} (st : Store) (stmt : Statement)
    (eval : Database -> string + R) : string + R :=
  match fault st stmt with
  | Some detail => inl detail
  | None => eval (tables st)
  end.

(** [FROM invoices JOIN customers ON invoices.customer_id = customers.id] *)
Definition invoices_join_customers (db : Database)
    : list (Invoice * Customer) :=
  flat_map
    (fun i =>
       map (pair i)
         (filter (fun c => String.eqb (customer_id i) (id c))
            (customers_table db)))
    (invoices_table db).

(** [FROM customers LEFT JOIN invoices ON customers.id =
    invoices.customer_id]: a customer without invoices yields one row whose
    invoice columns are [NULL]. *)
Definition customers_left_join_invoices (db : Database)
    : list (Customer * option Invoice) :=
  flat_map
    (fun c =>
       match filter (fun i => String.eqb (id c) (customer_id i))
               (invoices_table db) with
       | [] => [(c, None)]
       | found => map (fun i => (c, Some i)) found
       end)
    (customers_table db).

(** [ORDER BY invoices.date DESC] *)
Definition date_desc (a b : Invoice * Customer) : bool :=
  date_leb (date (fst b)) (date (fst a)).

(** The [WHERE] clause shared by [fetchFilteredInvoices] and
    [fetchInvoicesPages]:
    [customers.name ILIKE p OR customers.email ILIKE p OR
     invoices.amount::text ILIKE p OR invoices.date::text ILIKE p OR
     invoices.status ILIKE p]. *)
Definition invoice_filter (p : list Like.token) (r : Invoice * Customer)
    : bool :=
  let (i, c) := r in
  Sql.ilike (name c) p
  || Sql.ilike (email c) p
  || Sql.ilike (Text.decimal (amount i)) p
  || Sql.ilike (date_text (date i)) p
  || Sql.ilike (status_text (status i)) p.

(** The [WHERE] clause of [fetchFilteredCustomers]. *)
Definition customer_filter (p : list Like.token)
    (r : Customer * option Invoice) : bool :=
  Sql.ilike (name (fst r)) p || Sql.ilike (email (fst r)) p.

(** [SELECT * FROM revenue] *)
Definition select_revenue (db : Database) : string + list Revenue :=
  inr (revenue_table db).

(** [SELECT invoices.amount, customers.name, customers.image_url,
    customers.email, invoices.id FROM invoices JOIN customers ...
    ORDER BY invoices.date DESC LIMIT 5] *)
Definition select_latest_invoices (rank : nat -> nat) (db : Database)
    : string + list LatestInvoiceRaw :=
  inr (map
         (fun r : Invoice * Customer =>
            let (i, c) := r in
            mkLatestInvoiceRaw (invoice_id i) (name c) (email c)
              (image_url c) (amount i))
         (firstn 5
            (Sql.order_by_ties date_desc rank (invoices_join_customers db)))).

(** [SELECT COUNT( * ) FROM invoices] *)
Definition count_invoices (db : Database) : string + list CountRow :=
  inr [mkCountRow (Text.decimal (Z.of_nat (List.length (invoices_table db))))].

(** [SELECT COUNT( * ) FROM customers] *)
Definition count_customers (db : Database) : string + list CountRow :=
  inr [mkCountRow (Text.decimal (Z.of_nat (List.length (customers_table db))))].

(** [CASE WHEN status = s THEN amount ELSE 0 END] *)
Definition amount_if (s : Status) (i : Invoice) : option Z :=
  Some (if Status_eqb (status i) s then amount i else 0).

(** [SELECT SUM(CASE WHEN status = 'paid' ...) AS "paid",
    SUM(CASE WHEN status = 'pending' ...) AS "pending" FROM invoices] *)
Definition sum_by_status (db : Database) : string + list StatusSums :=
  inr [mkStatusSums
         (Sql.sum (map (amount_if paid) (invoices_table db)))
         (Sql.sum (map (amount_if pending) (invoices_table db)))].

(** The filtered join in date-descending order, rows of equal date in
    storage order. *)
Definition filtered_invoices (p : list Like.token) (db : Database)
    : list (Invoice * Customer) :=
  Sql.order_by date_desc
    (filter (invoice_filter p) (invoices_join_customers db)).

(** The filtered, ordered join of [fetchFilteredInvoices], before
    [LIMIT]/[OFFSET], as the store orders it. *)
Definition filtered_invoices_ties (rank : nat -> nat) (p : list Like.token)
    (db : Database) : list (Invoice * Customer) :=
  Sql.order_by_ties date_desc rank
    (filter (invoice_filter p) (invoices_join_customers db)).

Definition invoices_table_row (r : Invoice * Customer) : InvoicesTable :=
  let (i, c) := r in
  mkInvoicesTable (invoice_id i) (amount i) (date i) (status i) (name c)
    (email c) (image_url c).

(** The statement of [fetchFilteredInvoices], with its three bound
    parameters. *)
Definition select_filtered_invoices (rank : nat -> nat) (like : string)
    (limit : nat) (offset : Z) (db : Database)
    : string + list InvoicesTable :=
  match Sql.pattern like with
  | inl e => inl e
  | inr p =>
      match Sql.limit_offset limit offset
              (filtered_invoices_ties rank p db) with
      | inl e => inl e
      | inr rows => inr (map invoices_table_row rows)
      end
  end.

(** The statement of [fetchInvoicesPages]. *)
Definition count_filtered_invoices (like : string) (db : Database)
    : string + list CountRow :=
  match Sql.pattern like with
  | inl e => inl e
  | inr p =>
      inr [mkCountRow
             (Text.decimal
                (Z.of_nat
                   (List.length
                      (filter (invoice_filter p)
                         (invoices_join_customers db)))))]
  end.

(** [SELECT invoices.id, invoices.customer_id, invoices.amount,
    invoices.status FROM invoices WHERE invoices.id = $1 LIMIT 1] *)
Definition select_invoice_by_id (key : string) (db : Database)
    : string + list InvoiceFormRow :=
  inr (map
         (fun i =>
            mkInvoiceFormRow (invoice_id i) (customer_id i) (amount i)
              (status i))
         (firstn 1
            (filter (fun i => String.eqb (invoice_id i) key)
               (invoices_table db)))).

(** [ORDER BY name ASC], bytewise. *)
Definition name_asc (a b : Customer) : bool := String.leb (name a) (name b).

(** [SELECT id, name FROM customers ORDER BY name ASC] *)
Definition select_customers (rank : nat -> nat) (db : Database)
    : string + list CustomerField :=
  inr (map (fun c => mkCustomerField (id c) (name c))
         (Sql.order_by_ties name_asc rank (customers_table db))).

(** [GROUP BY customers.id, customers.name, customers.email,
    customers.image_url]: two rows fall into one group when the four
    columns agree ([NULL] image urls group together). *)
Definition same_group (a b : Customer) : bool :=
  String.eqb (id a) (id b)
  && String.eqb (name a) (name b)
  && String.eqb (email a) (email b)
  && match image_url a, image_url b with
     | Some x, Some y => String.eqb x y
     | None, None => true
     | _, _ => false
     end.

(** The distinct grouping keys, in order of first occurrence. *)
Fixpoint group_keys (l : list Customer) : list Customer :=
  match l with
  | [] => []
  | c :: l' => c :: filter (fun d => negb (same_group c d)) (group_keys l')
  end.

(** [CASE WHEN invoices.status = s THEN invoices.amount ELSE 0 END] on a row
    of the left join: on a [NULL] invoice the comparison is not true, so the
    [ELSE] arm applies. *)
Definition joined_amount_if (s : Status) (r : Customer * option Invoice)
    : option Z :=
  match snd r with
  | Some i => amount_if s i
  | None => Some 0
  end.

(** [COUNT(invoices.id)]: the rows whose invoice id is not [NULL]. *)
Definition count_invoice_ids (g : list (Customer * option Invoice)) : Z :=
  Z.of_nat
    (List.length
       (filter (fun r => match snd r with Some _ => true | None => false end)
          g)).

(** The aggregate row of one group. *)
Definition customer_summary (rows : list (Customer * option Invoice))
    (k : Customer) : CustomersTableRaw :=
  let g := filter (fun r => same_group k (fst r)) rows in
  mkCustomersTableRaw (id k) (name k) (email k) (image_url k)
    (count_invoice_ids g)
    (bigint_value (Sql.sum (map (joined_amount_if pending) g)))
    (bigint_value (Sql.sum (map (joined_amount_if paid) g))).

(** The statement of [fetchFilteredCustomers]. *)
Definition select_filtered_customers (rank : nat -> nat) (like : string)
    (db : Database) : string + list CustomersTableRaw :=
  match Sql.pattern like with
  | inl e => inl e
  | inr p =>
      let rows := filter (customer_filter p) (customers_left_join_invoices db) in
      inr (map (customer_summary rows)
             (Sql.order_by_ties name_asc rank (group_keys (map fst rows))))
  end.

(* ================================================================== *)
(** ** The exported functions *)
(* ================================================================== *)

(** [const ITEMS_PER_PAGE = 6;] *)
Definition ITEMS_PER_PAGE : Z := 6.

(** What [fetchCardData] returns. *)
Record CardData : Type := mkCardData {
  numberOfCustomers : number;
  numberOfInvoices : number;
  totalPaidInvoices : string;
  totalPendingInvoices : string
}.

(** The fixed messages of the eight [catch] arms. *)
Definition msg_fetchRevenue : string := "Failed to fetch revenue data.".
Definition msg_fetchLatestInvoices : string :=
  "Failed to fetch the latest invoices.".
Definition msg_fetchCardData : string := "Failed to fetch card data.".
Definition msg_fetchFilteredInvoices : string := "Failed to fetch invoices.".
Definition msg_fetchInvoicesPages : string :=
  "Failed to fetch total number of invoices.".
Definition msg_fetchInvoiceById : string := "Failed to fetch invoice.".
Definition msg_fetchCustomers : string := "Failed to fetch all customers.".
Definition msg_fetchFilteredCustomers : string :=
  "Failed to fetch customer table.".

(** [catch (error) { console.error(tag, error); throw new Error(message); }] *)
Definition log_and_rethrow {A : Type} (tag message : string) (error : Thrown)
    : Async A :=
  (console_error tag error ;;; throw (Error message))%async.

Section DataAccess.

(** The currency helper of [./utils], which this module imports: it turns an
    amount in cents into a display string. *)
Variable formatCurrency : Z -> string.

Local Open Scope async_scope.

Definition fetchRevenue (st : Store) : Async (list Revenue) :=
  try_catch
    (rows <- await (sql st SelectRevenue select_revenue) ;;
     ret rows)
    (log_and_rethrow "Database Error (fetchRevenue):" msg_fetchRevenue).

Definition fetchLatestInvoices (st : Store) : Async (list LatestInvoice) :=
  try_catch
    (rows <- await (sql st SelectLatestInvoices
                      (select_latest_invoices
                         (ties st SelectLatestInvoices 0))) ;;
     ret (map
            (fun invoice =>
               mkLatestInvoice (lr_id invoice) (lr_name invoice)
                 (lr_email invoice) (lr_image_url invoice)
                 (formatCurrency (lr_amount invoice)))
            rows))
    (log_and_rethrow "Database Error (fetchLatestInvoices):"
       msg_fetchLatestInvoices).

(** The shaping of the three result sets of [fetchCardData]. *)
Definition card_data (invoiceCountRes customerCountRes : list CountRow)
    (invoiceStatusRes : list StatusSums) : CardData :=
  let numberOfInvoices :=
    Number (inl (nullish (first_field invoiceCountRes count) "0")) in
  let numberOfCustomers :=
    Number (inl (nullish (first_field customerCountRes count) "0")) in
  let totalPaidInvoices :=
    formatCurrency (nullish (first_nullable invoiceStatusRes sums_paid) 0%Z) in
  let totalPendingInvoices :=
    formatCurrency
      (nullish (first_nullable invoiceStatusRes sums_pending) 0%Z) in
  mkCardData numberOfCustomers numberOfInvoices totalPaidInvoices
    totalPendingInvoices.

Definition fetchCardData (st : Store) : Async CardData :=
  try_catch
    (let invoiceCountPromise := sql st CountInvoices count_invoices in
     let customerCountPromise := sql st CountCustomers count_customers in
     let invoiceStatusPromise := sql st SumByStatus sum_by_status in
     res <- await_all3
              (latency st CountInvoices) invoiceCountPromise
              (latency st CountCustomers) customerCountPromise
              (latency st SumByStatus) invoiceStatusPromise ;;
     let '(invoiceCountRes, customerCountRes, invoiceStatusRes) := res in
     ret (card_data invoiceCountRes customerCountRes invoiceStatusRes))
    (log_and_rethrow "Database Error (fetchCardData):" msg_fetchCardData).

Definition fetchFilteredInvoices (st : Store) (query : string)
    (currentPage : Z) : Async (list InvoicesTable) :=
  let offset := ((currentPage - 1) * ITEMS_PER_PAGE)%Z in
  try_catch
    (let like := ("%" ++ query ++ "%")%string in
     rows <- await (sql st SelectFilteredInvoices
                      (select_filtered_invoices
                         (ties st SelectFilteredInvoices offset) like
                         (Z.to_nat ITEMS_PER_PAGE) offset)) ;;
     ret rows)
    (log_and_rethrow "Database Error (fetchFilteredInvoices):"
       msg_fetchFilteredInvoices).

Definition fetchInvoicesPages (st : Store) (query : string) : Async number :=
  try_catch
    (let like := ("%" ++ query ++ "%")%string in
     rows <- await (sql st CountFilteredInvoices
                      (count_filtered_invoices like)) ;;
     let total :=
       Number
         (nullish
            (first_field rows (fun r => inl (count r) : string + number))
            (inr (of_int 0))) in
     ret (Math_ceil (number_div total (of_int ITEMS_PER_PAGE))))
    (log_and_rethrow "Database Error (fetchInvoicesPages):"
       msg_fetchInvoicesPages).

(** [undefined] is [None]. *)
Definition fetchInvoiceById (st : Store) (key : string)
    : Async (option InvoiceForm) :=
  try_catch
    (rows <- await (sql st SelectInvoiceById (select_invoice_by_id key)) ;;
     match rows with
     | [] => ret None
     | inv :: _ =>
         ret (Some
                (mkInvoiceForm (fr_id inv) (fr_customer_id inv)
                   (number_div (of_int (fr_amount inv)) (of_int 100))
                   (fr_status inv)))
     end)
    (log_and_rethrow "Database Error (fetchInvoiceById):"
       msg_fetchInvoiceById).

Definition fetchCustomers (st : Store) : Async (list CustomerField) :=
  try_catch
    (rows <- await (sql st SelectCustomers
                      (select_customers (ties st SelectCustomers 0))) ;;
     ret rows)
    (log_and_rethrow "Database Error (fetchCustomers):" msg_fetchCustomers).

(** [Number.isFinite(v) ? formatCurrency(v) : formatCurrency(0)].
    [Number.isFinite] holds of a finite number only: it does not convert
    a string, and [null] is no number. *)
Definition format_if_finite (v : JsValue) : string :=
  match v with
  | JsNumber n => formatCurrency n
  | JsString _ => formatCurrency 0%Z
  | JsNull => formatCurrency 0%Z
  end.

Definition fetchFilteredCustomers (st : Store) (query : string)
    : Async (list CustomersTableType) :=
  try_catch
    (let like := ("%" ++ query ++ "%")%string in
     rows <- await (sql st SelectFilteredCustomers
                      (select_filtered_customers
                         (ties st SelectFilteredCustomers 0) like)) ;;
     ret (map
            (fun c =>
               mkCustomersTableType (cr_id c) (cr_name c) (cr_email c)
                 (cr_image_url c) (cr_total_invoices c)
                 (format_if_finite (cr_total_pending c))
                 (format_if_finite (cr_total_paid c)))
            rows))
    (log_and_rethrow "Database Error (fetchFilteredCustomers):"
       msg_fetchFilteredCustomers).

End DataAccess.

(* ================================================================== *)
(** ** The module seen as a whole: calls, their statements, their errors *)
(* ================================================================== *)

(** A call of one of the eight exported functions. *)
Inductive Call : Type :=
  | CallRevenue
  | CallLatestInvoices
  | CallCardData
  | CallFilteredInvoices (query : string) (currentPage : Z)
  | CallInvoicesPages (query : string)
  | CallInvoiceById (key : string)
  | CallCustomers
  | CallFilteredCustomers (query : string).

(** The statements a call sends to the store. *)
Definition statements_of (c : Call) : list Statement :=
  match c with
  | CallRevenue => [SelectRevenue]
  | CallLatestInvoices => [SelectLatestInvoices]
  | CallCardData => [CountInvoices; CountCustomers; SumByStatus]
  | CallFilteredInvoices _ _ => [SelectFilteredInvoices]
  | CallInvoicesPages _ => [CountFilteredInvoices]
  | CallInvoiceById _ => [SelectInvoiceById]
  | CallCustomers => [SelectCustomers]
  | CallFilteredCustomers _ => [SelectFilteredCustomers]
  end.

(** The message of the [catch] arm of the called function. *)
Definition message_of (c : Call) : string :=
  match c with
  | CallRevenue => msg_fetchRevenue
  | CallLatestInvoices => msg_fetchLatestInvoices
  | CallCardData => msg_fetchCardData
  | CallFilteredInvoices _ _ => msg_fetchFilteredInvoices
  | CallInvoicesPages _ => msg_fetchInvoicesPages
  | CallInvoiceById _ => msg_fetchInvoiceById
  | CallCustomers => msg_fetchCustomers
  | CallFilteredCustomers _ => msg_fetchFilteredCustomers
  end.

(** The tag its [catch] arm logs the storage error under. *)
Definition tag_of (c : Call) : string :=
  match c with
  | CallRevenue => "Database Error (fetchRevenue):"
  | CallLatestInvoices => "Database Error (fetchLatestInvoices):"
  | CallCardData => "Database Error (fetchCardData):"
  | CallFilteredInvoices _ _ => "Database Error (fetchFilteredInvoices):"
  | CallInvoicesPages _ => "Database Error (fetchInvoicesPages):"
  | CallInvoiceById _ => "Database Error (fetchInvoiceById):"
  | CallCustomers => "Database Error (fetchCustomers):"
  | CallFilteredCustomers _ => "Database Error (fetchFilteredCustomers):"
  end.

(** What the caller observes of a computation besides its value: the
    console, and the thrown value if it threw. *)
Definition observe {A : Type} (m : Async A) : list LogLine * option Thrown :=
  match run m with
  | (log, inl e) => (log, Some e)
  | (log, inr _) => (log, None)
  end.

Definition outcome (formatCurrency : Z -> string) (c : Call) (st : Store)
    : list LogLine * option Thrown :=
  match c with
  | CallRevenue => observe (fetchRevenue st)
  | CallLatestInvoices => observe (fetchLatestInvoices formatCurrency st)
  | CallCardData => observe (fetchCardData formatCurrency st)
  | CallFilteredInvoices q page => observe (fetchFilteredInvoices st q page)
  | CallInvoicesPages q => observe (fetchInvoicesPages st q)
  | CallInvoiceById key => observe (fetchInvoiceById st key)
  | CallCustomers => observe (fetchCustomers st)
  | CallFilteredCustomers q =>
      observe (fetchFilteredCustomers formatCurrency st q)
  end.

(* ================================================================== *)
(** ** Notions the properties are stated with *)
(* ================================================================== *)

(** The pattern a search box text is bound as: ['%' + query + '%']. *)
Definition wrap (query : string) : string := "%" ++ query ++ "%".

(** The count the statement of [fetchInvoicesPages] yields: the number of
    joined invoice rows that pass its [WHERE] clause, the query standing in
    the [ILIKE] pattern as it is. *)
Definition matchCount (query : string) (db : Database) : nat :=
  match Sql.pattern (wrap query) with
  | inr p =>
      List.length (filter (invoice_filter p) (invoices_join_customers db))
  | inl _ => 0%nat
  end.

(** The data-model invariant the module assumes of the store: customer ids
    are a key, and every invoice refers to an existing customer. *)
Definition referential_integrity (db : Database) : Prop :=
  NoDup (map id (customers_table db))
  /\ forall i, In i (invoices_table db) ->
       exists c, In c (customers_table db) /\ id c = customer_id i.

(** Substring containment up to ASCII case, as a program... *)
Fixpoint prefix_ci (q s : list ascii) : bool :=
  match q, s with
  | [], _ => true
  | _ :: _, [] => false
  | a :: q', b :: s' =>
      Ascii.eqb (Text.lower a) (Text.lower b) && prefix_ci q' s'
  end.

Fixpoint infix_ci (q s : list ascii) : bool :=
  prefix_ci q s
  || match s with
     | [] => false
     | _ :: s' => infix_ci q s'
     end.

(** ... and as a statement: [hay] reads [pre ++ needle ++ post] once both
    are case-folded. *)
Definition contains_ci (needle hay : string) : Prop :=
  exists pre post : list ascii,
    Text.fold_case (Text.chars hay)
    = (pre ++ Text.fold_case (Text.chars needle) ++ post)%list.

(** "At least one of customer name, customer email, invoice amount as text,
    invoice date as text, or invoice status contains the query." *)
Definition some_field_contains (query : string) (r : Invoice * Customer)
    : Prop :=
  contains_ci query (name (snd r))
  \/ contains_ci query (email (snd r))
  \/ contains_ci query (Text.decimal (amount (fst r)))
  \/ contains_ci query (date_text (date (fst r)))
  \/ contains_ci query (status_text (status (fst r))).

(** The same, as a test. *)
Definition some_field_contains_b (query : string) (r : Invoice * Customer)
    : bool :=
  infix_ci (Text.chars query) (Text.chars (name (snd r)))
  || infix_ci (Text.chars query) (Text.chars (email (snd r)))
  || infix_ci (Text.chars query) (Text.chars (Text.decimal (amount (fst r))))
  || infix_ci (Text.chars query) (Text.chars (date_text (date (fst r))))
  || infix_ci (Text.chars query) (Text.chars (status_text (status (fst r)))).

(** "The number of invoice rows (joined with their customer) matching the
    substring filter." *)
Definition substring_count (query : string) (db : Database) : nat :=
  List.length
    (filter (some_field_contains_b query) (invoices_join_customers db)).

(** A query with none of the characters [ILIKE] gives a meaning to. *)
Definition plain_char (c : ascii) : bool :=
  negb (Ascii.eqb c "\" || Ascii.eqb c "%" || Ascii.eqb c "_").

Definition plain (query : string) : bool :=
  forallb plain_char (Text.chars query).

(** The sum of the amounts of the invoices in a given status. *)
Definition total_with_status (s : Status) (l : list Invoice) : Z :=
  fold_right Z.add 0
    (map amount (filter (fun i => Status_eqb (status i) s) l)).

(** The row [fetchLatestInvoices] makes of a joined pair. *)
Definition latest_view (formatCurrency : Z -> string)
    (r : Invoice * Customer) : LatestInvoice :=
  mkLatestInvoice (invoice_id (fst r)) (name (snd r)) (email (snd r))
    (image_url (snd r)) (formatCurrency (amount (fst r))).

(** [a] is at least as recent as [b]. *)
Definition no_older (a b : Invoice * Customer) : Prop :=
  date_desc a b = true.

(** What a call can be observed to do: return with a silent console, or log
    one storage error under its tag and throw its own [Error]. *)
Definition settles (c : Call) (st : Store)
    (o : list LogLine * option Thrown) : Prop :=
  match o with
  | (log, None) =>
      log = [] /\ forall s, In s (statements_of c) -> fault st s = None
  | (log, Some e) =>
      e = Error (message_of c)
      /\ exists d,
           log = [(tag_of c, StorageError d)]
           /\ ((forall s, In s (statements_of c) -> fault st s = None)
               \/ exists s, In s (statements_of c) /\ fault st s = Some d)
  end.

(** What a caller and the console see of a call whose [catch] arm ran on a
    storage error with the given detail. *)
Definition failed {A : Type} (tag message detail : string)
    : list LogLine * (Thrown + A) :=
  ([(tag, StorageError detail)], inl (Error message)).

(* ================================================================== *)
(** ** Sample stores, for running the functions *)
(* ================================================================== *)

Module Sample.

(** A display format in the manner of ["$157.95"]. *)
Definition usd (cents : Z) : string :=
  "$" ++ Text.decimal (cents / 100) ++ "."
  ++ Text.pad 2 (Z.to_nat (cents mod 100)).

Definition no_fault : Statement -> option string := fun _ => None.

(** Rows with equal sort keys in storage order, whatever the statement. *)
Definition storage_order : Statement -> Z -> nat -> nat := fun _ _ i => i.

(** All statements settle at the same time. *)
Definition at_once : Statement -> nat := fun _ => 0%nat.

Definition smith : Customer :=
  mkCustomer "c1" "Anna Smith" "anna@smith.example" None.
Definition jane : Customer :=
  mkCustomer "c2" "Jane Doe" "jane@doe.example" (Some "/customers/jane.png").

Definition inv (n : nat) (cents : Z) (day : nat) (s : Status) : Invoice :=
  mkInvoice ("i" ++ Text.decimal (Z.of_nat n)) "c1" cents
    (mkDate 2024 3 day) s.

(** Seven invoices, all of Anna Smith; Jane Doe has none. *)
Definition db7 : Database :=
  mkDatabase
    [mkRevenue "Jan" 2000; mkRevenue "Feb" 1800]
    [inv 1 15795 4 pending; inv 2 20348 9 paid; inv 3 3040 1 paid;
     inv 4 44800 7 paid; inv 5 34577 2 pending; inv 6 54246 9 pending;
     inv 7 666 5 canceled]
    [smith; jane].

Definition store7 : Store := mkStore db7 no_fault storage_order at_once.

(** Two invoices only. *)
Definition db2 : Database :=
  mkDatabase [] [inv 1 15795 4 pending; inv 2 20348 9 paid] [smith; jane].

Definition store2 : Store := mkStore db2 no_fault storage_order at_once.

(** No invoice at all. *)
Definition db0 : Database := mkDatabase [] [] [smith; jane].

Definition store0 : Store := mkStore db0 no_fault storage_order at_once.

(** The store of [db7] with a broken connection on one statement. *)
Definition broken (s : Statement) (detail : string) : Store :=
  mkStore db7
    (fun s' =>
       match s, s' with
       | SelectRevenue, SelectRevenue
       | SelectLatestInvoices, SelectLatestInvoices
       | CountInvoices, CountInvoices
       | CountCustomers, CountCustomers
       | SumByStatus, SumByStatus
       | SelectFilteredInvoices, SelectFilteredInvoices
       | CountFilteredInvoices, CountFilteredInvoices
       | SelectInvoiceById, SelectInvoiceById
       | SelectCustomers, SelectCustomers
       | SelectFilteredCustomers, SelectFilteredCustomers => Some detail
       | _, _ => None
       end)
    storage_order at_once.

End Sample.

(* ================================================================== *)
(** ** Notions for the properties of paging, search and customers *)
(* ================================================================== *)

(** The rows a listing call returned; none when it threw. *)
Definition returned_rows {A : Type} (r : list LogLine * (Thrown + list A))
    : list A :=
  match snd r with
  | inr rows => rows
  | inl _ => []
  end.

(** The page count [fetchInvoicesPages] computes, as a natural number. *)
Definition page_count (query : string) (db : Database) : nat :=
  Z.to_nat
    (Qceiling
       (inject_Z (Z.of_nat (matchCount query db)) / inject_Z ITEMS_PER_PAGE)).

(** [a] stands before [b] in a listing by date descending. *)
Definition newest_first (a b : InvoicesTable) : Prop :=
  date_leb (it_date b) (it_date a) = true.

(** Two texts that differ in the case of ASCII letters only. *)
Definition same_up_to_case (q1 q2 : string) : Prop :=
  Text.fold_case (Text.chars q1) = Text.fold_case (Text.chars q2).

(** Two pattern tokens that differ in the case of a literal only. *)
Definition token_same (s t : Like.token) : Prop :=
  match s, t with
  | Like.AnyRun, Like.AnyRun => True
  | Like.AnyChar, Like.AnyChar => True
  | Like.Lit a, Like.Lit b => Text.lower a = Text.lower b
  | _, _ => False
  end.

(** The invoices of a customer. *)
Definition invoices_of (c : Customer) (db : Database) : list Invoice :=
  filter (fun i => String.eqb (id c) (customer_id i)) (invoices_table db).

(** The rows a customer contributes to the left join. *)
Definition left_rows (db : Database) (c : Customer)
    : list (Customer * option Invoice) :=
  match invoices_of c db with
  | [] => [(c, None)]
  | found => map (fun i => (c, Some i)) found
  end.

(** The customer a row of [fetchFilteredCustomers] is about. *)
Definition row_customer (r : CustomersTableType) : Customer :=
  mkCustomer (ct_id r) (ct_name r) (ct_email r) (ct_image_url r).

(** The [WHERE] clause of [fetchFilteredCustomers] on a customer. *)
Definition passes (p : list Like.token) (c : Customer) : bool :=
  Sql.ilike (name c) p || Sql.ilike (email c) p.

(** The row of a customer as [fetchFilteredCustomers] returns it: its own
    invoices counted, and both totals the formatted zero. *)
Definition customer_row (formatCurrency : Z -> string) (db : Database)
    (c : Customer) : CustomersTableType :=
  mkCustomersTableType (id c) (name c) (email c) (image_url c)
    (Z.of_nat (List.length (invoices_of c db)))
    (formatCurrency 0%Z)
    (formatCurrency 0%Z).

(** An invoice whose [customer_id] is the id of no customer. *)
Definition orphan (i : Invoice) (db : Database) : Prop :=
  forall c, In c (customers_table db) -> id c <> customer_id i.

(** A page number of at least 1 whose offset is a safe integer: the offset
    is then computed exactly and the store accepts it. *)
Definition safe_page (page : Z) : Prop :=
  (1 <= page)%Z /\ ((page - 1) * ITEMS_PER_PAGE <= MAX_SAFE_INTEGER)%Z.

(** The page number of a call, when it has one, is a safe page. *)
Definition page_ok (c : Call) : Prop :=
  match c with
  | CallFilteredInvoices _ page => safe_page page
  | _ => True
  end.


Module More.

(** [Sample.db7] with one more invoice, of a customer that does not
    exist. *)
Definition stray : Invoice :=
  mkInvoice "i8" "c9" 9900 (mkDate 2024 3 30) paid.

Definition db8 : Database :=
  mkDatabase (revenue_table Sample.db7)
    (invoices_table Sample.db7 ++ [stray])
    (customers_table Sample.db7).

Definition store8 : Store :=
  mkStore db8 Sample.no_fault Sample.storage_order Sample.at_once.

(** One invoice, of Anna Smith. *)
Definition db1 : Database :=
  mkDatabase [] [Sample.inv 1 15795 4 pending] [Sample.smith; Sample.jane].

Definition store1 : Store :=
  mkStore db1 Sample.no_fault Sample.storage_order Sample.at_once.

(** [Sample.store7] on a store that, for the first page of the listing,
    puts rows of equal date in reverse storage order. *)
Definition store7r : Store :=
  mkStore Sample.db7 Sample.no_fault
    (fun s offset i =>
       match s with
       | SelectFilteredInvoices => if (offset =? 0)%Z then (7 - i)%nat else i
       | _ => i
       end)
    Sample.at_once.

(** [Sample.db7] with the invoice counts failing late and the sums failing
    early. *)
Definition store7late : Store :=
  mkStore Sample.db7
    (fun s =>
       match s with
       | CountInvoices => Some "timeout"
       | SumByStatus => Some "connection reset"
       | _ => None
       end)
    Sample.storage_order
    (fun s => match s with CountInvoices => 9%nat | _ => 2%nat end).

End More.

(* ================================================================== *)
(** ** Facts about text and ILIKE *)
(* ================================================================== *)

Lemma chars_app (a b : string) :
  Text.chars (a ++ b) = (Text.chars a ++ Text.chars b)%list.
Proof.
  unfold Text.chars. induction a as [|c a IH]; simpl; [reflexivity|].
  now rewrite IH.
Qed.

Lemma chars_wrap (q : string) :
  Text.chars (wrap q) = ("%"%char :: Text.chars q ++ ["%"%char])%list.
Proof.
  unfold wrap. rewrite !chars_app. reflexivity.
Qed.

(** A pattern that ends in [%] always compiles: the final [%] closes a
    pending backslash, if there is one. *)
Lemma compile_closed_by_percent (n : nat) :
  forall l, (List.length l <= n)%nat ->
    exists ts, Like.compile (l ++ ["%"%char]) = Some ts.
Proof.
  induction n as [|n IH]; intros l Hl.
  - destruct l; simpl in Hl; [|lia]. simpl. eauto.
  - destruct l as [|c l]; [simpl; eauto|].
    simpl in Hl. simpl.
    destruct (Ascii.eqb c "\").
    + destruct l as [|d l]; [simpl; eauto|].
      simpl in Hl. simpl.
      destruct (IH l ltac:(lia)) as [ts Hts]. rewrite Hts. simpl. eauto.
    + destruct (IH l ltac:(lia)) as [ts Hts]. rewrite Hts.
      destruct (Ascii.eqb c "%"); [simpl; eauto|].
      destruct (Ascii.eqb c "_"); simpl; eauto.
Qed.

Lemma pattern_wrap (q : string) :
  exists p, Sql.pattern (wrap q) = inr p.
Proof.
  unfold Sql.pattern. rewrite chars_wrap.
  change ("%"%char :: Text.chars q ++ ["%"%char])%list
    with (("%"%char :: Text.chars q) ++ ["%"%char])%list.
  destruct (compile_closed_by_percent (S (List.length (Text.chars q)))
              ("%"%char :: Text.chars q) (le_n _)) as [ts Hts].
  rewrite Hts. eauto.
Qed.

(** On a plain text the compiled pattern is the text itself. *)
Lemma compile_plain (l rest : list ascii) :
  forallb plain_char l = true ->
  Like.compile (l ++ rest)
  = option_map (List.app (map Like.Lit l)) (Like.compile rest).
Proof.
  induction l as [|c l IH]; intros H; simpl.
  - destruct (Like.compile rest); reflexivity.
  - simpl in H. apply andb_true_iff in H as [Hc Hl].
    unfold plain_char in Hc. apply negb_true_iff in Hc.
    apply orb_false_iff in Hc as [Hc H3].
    apply orb_false_iff in Hc as [H1 H2].
    rewrite H1, H2, H3, (IH Hl).
    destruct (Like.compile rest); reflexivity.
Qed.

Lemma pattern_plain (q : string) :
  plain q = true ->
  Sql.pattern (wrap q)
  = inr (Like.AnyRun :: map Like.Lit (Text.chars q) ++ [Like.AnyRun])%list.
Proof.
  intros H. unfold Sql.pattern. rewrite chars_wrap.
  cbn [Like.compile]. simpl (Ascii.eqb "%" "\"). simpl (Ascii.eqb "%" "%").
  cbv iota. rewrite (compile_plain _ _ H). reflexivity.
Qed.

(** [%] in front of a pattern: some suffix of the subject matches the
    rest. *)
Lemma matches_any_run (p : list Like.token) (s : list ascii) :
  Like.matches (Like.AnyRun :: p) s = true
  <-> exists pre post, s = (pre ++ post)%list /\ Like.matches p post = true.
Proof.
  induction s as [|c s IH].
  - simpl. rewrite orb_false_r. split.
    + intros H. exists [], []. auto.
    + intros (pre & post & E & H).
      symmetry in E. apply app_eq_nil in E as [-> ->]. exact H.
  - change (Like.matches (Like.AnyRun :: p) (c :: s))
      with (Like.matches p (c :: s) || Like.matches (Like.AnyRun :: p) s).
    rewrite orb_true_iff, IH. split.
    + intros [H | (pre & post & -> & H)].
      * exists [], (c :: s). auto.
      * exists (c :: pre), post. auto.
    + intros (pre & post & E & H). destruct pre as [|d pre].
      * simpl in E. subst post. now left.
      * simpl in E. injection E as -> ->. right. eauto.
Qed.

Lemma matches_only_any_run (s : list ascii) :
  Like.matches [Like.AnyRun] s = true.
Proof.
  apply matches_any_run. exists s, []. split; [now rewrite List.app_nil_r|].
  reflexivity.
Qed.

(** Literals in front of a pattern: a prefix of the subject equals them up
    to case, and the rest matches the rest. *)
Lemma matches_literals (q : list ascii) (p : list Like.token) :
  forall s,
    Like.matches (map Like.Lit q ++ p) s = true
    <-> exists s1 s2, s = (s1 ++ s2)%list
          /\ Text.fold_case s1 = Text.fold_case q
          /\ Like.matches p s2 = true.
Proof.
  induction q as [|c q IH]; intros s.
  - simpl. split.
    + intros H. exists [], s. auto.
    + intros (s1 & s2 & -> & E & H).
      destruct s1; [exact H | discriminate].
  - simpl. destruct s as [|d s].
    + split; [discriminate|].
      intros (s1 & s2 & E & F & _).
      destruct s1; [discriminate F | discriminate E].
    + rewrite andb_true_iff, Ascii.eqb_eq, IH. split.
      * intros (Hc & s1 & s2 & -> & E & H).
        exists (d :: s1), s2. simpl. rewrite E, Hc. auto.
      * intros (s1 & s2 & E & F & H).
        destruct s1 as [|d' s1]; [discriminate F|].
        simpl in E, F. injection E as <- ->. injection F as Hd F.
        split; [now symmetry|]. eauto.
Qed.

(** The pattern of a plain query is a substring test up to case. *)
Lemma ilike_literals (q x : string) :
  Sql.ilike x
    (Like.AnyRun :: map Like.Lit (Text.chars q) ++ [Like.AnyRun])%list = true
  <-> contains_ci q x.
Proof.
  unfold Sql.ilike, contains_ci. rewrite matches_any_run. split.
  - intros (pre & post & E & H).
    apply matches_literals in H as (s1 & s2 & -> & F & _).
    exists (Text.fold_case pre), (Text.fold_case s2).
    rewrite E. unfold Text.fold_case in *. now rewrite !map_app, F.
  - intros (pre & post & E). unfold Text.fold_case in E.
    apply map_eq_app in E as (l1 & l2 & E & <- & F).
    apply map_eq_app in F as (l3 & l4 & -> & F & <-).
    exists l1, (l3 ++ l4)%list. split; [exact E|].
    apply matches_literals. exists l3, l4. split; [reflexivity|].
    split; [exact F | apply matches_only_any_run].
Qed.

(** The executable substring test agrees with the statement. *)
Lemma prefix_ci_spec (q s : list ascii) :
  prefix_ci q s = true
  <-> exists post,
        Text.fold_case s = (Text.fold_case q ++ post)%list.
Proof.
  revert s. induction q as [|a q IH]; intros s; simpl.
  - split; eauto.
  - destruct s as [|b s]; simpl.
    + split; [discriminate | intros [post E]; discriminate E].
    + rewrite andb_true_iff, Ascii.eqb_eq, IH. split.
      * intros (-> & post & ->). eauto.
      * intros (post & E). injection E as -> E. split; eauto.
Qed.

Lemma infix_ci_spec (q x : string) :
  infix_ci (Text.chars q) (Text.chars x) = true <-> contains_ci q x.
Proof.
  unfold contains_ci. generalize (Text.chars x) as s.
  generalize (Text.chars q) as n. intros n s.
  induction s as [|b s IH].
  - simpl. rewrite orb_false_r, prefix_ci_spec. split.
    + intros (post & E). exists [], post. exact E.
    + intros (pre & post & E). destruct pre; [eauto|discriminate E].
  - cbn [infix_ci]. rewrite orb_true_iff, prefix_ci_spec, IH. split.
    + intros [(post & E) | (pre & post & E)].
      * exists [], post. exact E.
      * exists (Text.lower b :: pre), post. simpl. now rewrite E.
    + intros (pre & post & E). destruct pre as [|c pre].
      * left. eauto.
      * right. simpl in E. injection E as _ E. eauto.
Qed.

(* ================================================================== *)
(** ** Facts about numbers *)
(* ================================================================== *)

Lemma int_of_string_decimal (z : Z) :
  NilZero.int_of_string (Text.decimal z) = Some (Z.to_int z).
Proof.
  unfold Text.decimal. apply NilZero.isi.
  - destruct z; simpl; try discriminate.
    intros [= E]. now apply (DecimalPos.Unsigned.to_uint_nonnil p).
  - destruct z; simpl; try discriminate.
    intros [= E]. now apply (DecimalPos.Unsigned.to_uint_nonnil p).
Qed.

(** [Number] reads back the decimal text of an integer. *)
Lemma Number_decimal (z : Z) : Number (inl (Text.decimal z)) = of_int z.
Proof.
  pose proof (int_of_string_decimal z) as H.
  unfold Number. destruct (Text.decimal z) as [|c s] eqn:E.
  - discriminate H.
  - rewrite H. now rewrite DecimalZ.of_to.
Qed.

(** [Math.ceil(n / 6)] is the least number of pages of six that hold [n]
    rows. *)
Lemma ceil_pages (n : Z) :
  (ITEMS_PER_PAGE * (Qceiling (inject_Z n / inject_Z ITEMS_PER_PAGE) - 1) < n
   <= ITEMS_PER_PAGE * Qceiling (inject_Z n / inject_Z ITEMS_PER_PAGE))%Z.
Proof.
  unfold ITEMS_PER_PAGE, Qceiling, Qfloor, Qdiv, Qmult, Qinv, Qopp, inject_Z.
  cbn [Qnum Qden Pos.mul].
  pose proof (Z.div_mod (- (n * 1)) 6 ltac:(lia)) as E.
  pose proof (Z.mod_pos_bound (- (n * 1)) 6 ltac:(lia)) as B.
  lia.
Qed.

Lemma Math_ceil_pages (n : Z) :
  Math_ceil (number_div (of_int n) (of_int ITEMS_PER_PAGE))
  = of_int (Qceiling (inject_Z n / inject_Z ITEMS_PER_PAGE)).
Proof. reflexivity. Qed.

(* ================================================================== *)
(** ** Facts about ORDER BY *)
(* ================================================================== *)

Section OrderBy.

Context {A : Type} (before : A -> A -> bool).

Lemma insert_perm (x : A) (l : list A) :
  Permutation (x :: l) (Sql.insert before x l).
Proof.
  induction l as [|y l IH]; simpl; [reflexivity|].
  destruct (before x y); [reflexivity|].
  rewrite perm_swap. now constructor.
Qed.

Lemma order_by_perm (l : list A) : Permutation l (Sql.order_by before l).
Proof.
  induction l as [|x l IH]; simpl; [constructor|].
  rewrite <- insert_perm. now constructor.
Qed.

Lemma order_by_In (l : list A) (x : A) :
  In x (Sql.order_by before l) <-> In x l.
Proof.
  split; apply Permutation_in;
    [symmetry|]; apply order_by_perm.
Qed.


Hypothesis before_total : forall a b, before a b = true \/ before b a = true.
Hypothesis before_trans :
  forall a b c, before a b = true -> before b c = true -> before a c = true.

Let ordered (a b : A) : Prop := before a b = true.

Lemma insert_sorted (x : A) (l : list A) :
  StronglySorted ordered l -> StronglySorted ordered (Sql.insert before x l).
Proof.
  induction 1 as [|y l Hl IH Hy]; simpl.
  - repeat constructor.
  - destruct (before x y) eqn:E.
    + constructor; [now constructor|].
      constructor; [exact E|].
      rewrite Forall_forall in *. intros z Hz.
      eapply before_trans; [exact E | now apply Hy].
    + constructor; [exact IH|].
      rewrite Forall_forall in *. intros z Hz.
      apply (Permutation_in _ (Permutation_sym (insert_perm x l))) in Hz.
      destruct Hz as [<- | Hz]; [|now apply Hy].
      destruct (before_total x y) as [F | F]; [congruence | exact F].
Qed.

Lemma order_by_sorted (l : list A) :
  StronglySorted ordered (Sql.order_by before l).
Proof.
  induction l as [|x l IH]; simpl; [constructor|].
  now apply insert_sorted.
Qed.

(** In a sorted list, whatever lies beyond the first [n] rows stands after
    each of them. *)
Lemma sorted_firstn_skipn (n : nat) (l : list A) :
  StronglySorted ordered l ->
  forall x y, In x (firstn n l) -> In y (skipn n l) -> ordered x y.
Proof.
  intros Hl. revert n. induction Hl as [|a l Hl IH Ha]; intros n x y Hx Hy.
  - now rewrite firstn_nil in Hx.
  - destruct n as [|n]; [contradiction Hx|].
    simpl in Hx, Hy. destruct Hx as [<- | Hx].
    + rewrite Forall_forall in Ha. apply Ha.
      rewrite <- (firstn_skipn n l). apply in_or_app. now right.
    + now apply (IH n).
Qed.

Lemma sorted_firstn (n : nat) (l : list A) :
  StronglySorted ordered l -> StronglySorted ordered (firstn n l).
Proof.
  intros Hl. revert n. induction Hl as [|a l Hl IH Ha]; intros n.
  - rewrite firstn_nil. constructor.
  - destruct n as [|n]; simpl; constructor; [apply IH|].
    rewrite Forall_forall in *. intros z Hz. apply Ha.
    rewrite <- (firstn_skipn n l). apply in_or_app. now left.
Qed.

End OrderBy.

Lemma sorted_skipn {A : Type} (R : A -> A -> Prop) (n : nat) :
  forall l, StronglySorted R l -> StronglySorted R (skipn n l).
Proof.
  induction n as [|n IH]; intros l Hl; [exact Hl|].
  destruct l as [|a l]; [exact Hl|].
  apply IH. now inversion Hl.
Qed.

Lemma sorted_map {A B : Type} (R : B -> B -> Prop) (f : A -> B)
    (l : list A) :
  StronglySorted (fun a b => R (f a) (f b)) l -> StronglySorted R (map f l).
Proof.
  induction 1 as [|a l Hl IH Ha]; simpl; constructor; [exact IH|].
  rewrite Forall_forall in *. intros b Hb.
  apply in_map_iff in Hb as (x & <- & Hx). now apply Ha.
Qed.

Lemma sorted_impl {A : Type} (R R' : A -> A -> Prop) (l : list A) :
  (forall a b, R a b -> R' a b) ->
  StronglySorted R l -> StronglySorted R' l.
Proof.
  intros H. induction 1 as [|a l Hl IH Ha]; constructor; [exact IH|].
  eapply Forall_impl; [|exact Ha]. intros b. apply H.
Qed.

(** Two sorted arrangements of the same rows are the same list when no two
    distinct rows are interchangeable in the order. *)
Lemma sorted_perm_unique {A : Type} (R : A -> A -> Prop) :
  forall l1 l2 : list A,
    (forall x y, In x l1 -> In y l1 -> R x y -> R y x -> x = y) ->
    StronglySorted R l1 -> StronglySorted R l2 -> Permutation l1 l2 ->
    l1 = l2.
Proof.
  induction l1 as [|a l1 IH]; intros l2 Hanti H1 H2 Hperm.
  - now apply Permutation_nil in Hperm.
  - destruct l2 as [|b l2];
      [now apply Permutation_sym, Permutation_nil in Hperm|].
    inversion H1 as [|? ? H1' Ha]; subst.
    inversion H2 as [|? ? H2' Hb]; subst.
    rewrite Forall_forall in Ha, Hb.
    assert (Hb1 : In b (a :: l1))
      by (apply (Permutation_in _ (Permutation_sym Hperm)); now left).
    assert (Ha2 : In a (b :: l2))
      by (apply (Permutation_in _ Hperm); now left).
    assert (E : a = b).
    { destruct Hb1 as [E | Hb1]; [exact E|].
      destruct Ha2 as [E | Ha2]; [now symmetry|].
      apply Hanti; [now left | now right | now apply Ha | now apply Hb]. }
    subst b. f_equal. apply IH; try assumption.
    + intros x y Hx Hy. apply Hanti; now right.
    + now apply Permutation_cons_inv in Hperm.
Qed.

Section OrderByTies.

Context {A : Type} (before : A -> A -> bool) (rank : nat -> nat).

Lemma combine_seq_snd (l : list A) (k : nat) :
  map snd (combine (seq k (List.length l)) l) = l.
Proof.
  revert k. induction l as [|a l IH]; intros k; [reflexivity|].
  simpl. now rewrite IH.
Qed.

Lemma order_by_ties_perm (l : list A) :
  Permutation l (Sql.order_by_ties before rank l).
Proof.
  unfold Sql.order_by_ties.
  rewrite <- (combine_seq_snd l 0) at 1.
  apply Permutation_map, order_by_perm.
Qed.

Lemma order_by_ties_In (l : list A) (x : A) :
  In x (Sql.order_by_ties before rank l) <-> In x l.
Proof.
  split; apply Permutation_in;
    [symmetry|]; apply order_by_ties_perm.
Qed.

Lemma order_by_ties_length (l : list A) :
  List.length (Sql.order_by_ties before rank l) = List.length l.
Proof. symmetry. apply Permutation_length, order_by_ties_perm. Qed.

Hypothesis before_total : forall a b, before a b = true \/ before b a = true.
Hypothesis before_trans :
  forall a b c, before a b = true -> before b c = true -> before a c = true.

Lemma tie_before_total (x y : nat * A) :
  Sql.tie_before before rank x y = true
  \/ Sql.tie_before before rank y x = true.
Proof.
  unfold Sql.tie_before.
  destruct (before_total (snd x) (snd y)) as [H | H]; rewrite H;
    destruct (before (snd y) (snd x)) eqn:E;
    try destruct (before (snd x) (snd y)) eqn:F;
    rewrite ?Nat.leb_le; auto; lia.
Qed.

Lemma tie_before_trans (x y z : nat * A) :
  Sql.tie_before before rank x y = true ->
  Sql.tie_before before rank y z = true ->
  Sql.tie_before before rank x z = true.
Proof.
  unfold Sql.tie_before.
  destruct (before (snd x) (snd y)) eqn:Hxy; [|discriminate].
  destruct (before (snd y) (snd z)) eqn:Hyz; [|intros _; discriminate].
  rewrite (before_trans _ _ _ Hxy Hyz).
  destruct (before (snd y) (snd x)) eqn:Hyx;
    destruct (before (snd z) (snd y)) eqn:Hzy;
    destruct (before (snd z) (snd x)) eqn:Hzx;
    rewrite ?Nat.leb_le; intros; try reflexivity; try lia.
  - rewrite (before_trans _ _ _ Hzx Hxy) in Hzy. discriminate.
  - rewrite (before_trans _ _ _ Hyz Hzx) in Hyx. discriminate.
  - rewrite (before_trans _ _ _ Hyz Hzx) in Hyx. discriminate.
Qed.

Lemma order_by_ties_sorted (l : list A) :
  StronglySorted (fun a b => before a b = true)
    (Sql.order_by_ties before rank l).
Proof.
  unfold Sql.order_by_ties. apply sorted_map.
  apply (sorted_impl (fun x y => Sql.tie_before before rank x y = true)).
  - intros x y. unfold Sql.tie_before.
    now destruct (before (snd x) (snd y)).
  - apply order_by_sorted; [apply tie_before_total | apply tie_before_trans].
Qed.

End OrderByTies.

(** [date_leb] is the lexicographic order on year, month, day. *)
Lemma date_leb_lex (a b : Date) :
  date_leb a b = true
  <-> (d_year a < d_year b
       \/ (d_year a = d_year b
           /\ (d_month a < d_month b
               \/ (d_month a = d_month b /\ d_day a <= d_day b))))%nat.
Proof.
  unfold date_leb.
  destruct (Nat.ltb_spec (d_year a) (d_year b)); [intuition lia|].
  destruct (Nat.ltb_spec (d_year b) (d_year a));
    [split; [discriminate | lia]|].
  destruct (Nat.ltb_spec (d_month a) (d_month b)); [intuition lia|].
  destruct (Nat.ltb_spec (d_month b) (d_month a));
    [split; [discriminate | lia]|].
  rewrite Nat.leb_le. lia.
Qed.

Lemma date_leb_total (a b : Date) :
  date_leb a b = true \/ date_leb b a = true.
Proof. rewrite !date_leb_lex. lia. Qed.

Lemma date_leb_trans (a b c : Date) :
  date_leb a b = true -> date_leb b c = true -> date_leb a c = true.
Proof. rewrite !date_leb_lex. lia. Qed.

Lemma date_desc_total (a b : Invoice * Customer) :
  date_desc a b = true \/ date_desc b a = true.
Proof. unfold date_desc. apply date_leb_total. Qed.

Lemma date_desc_trans (a b c : Invoice * Customer) :
  date_desc a b = true -> date_desc b c = true -> date_desc a c = true.
Proof. unfold date_desc. intros H1 H2. eapply date_leb_trans; eassumption. Qed.

(* ================================================================== *)
(** ** Facts about the joins *)
(* ================================================================== *)

Lemma filter_all {A : Type} (f : A -> bool) (l : list A) :
  (forall x, In x l -> f x = true) -> filter f l = l.
Proof.
  induction l as [|a l IH]; intros H; simpl; [reflexivity|].
  rewrite (H a (or_introl eq_refl)), IH; [reflexivity|].
  intros x Hx. apply H. now right.
Qed.

Lemma filter_none {A : Type} (f : A -> bool) (l : list A) :
  (forall x, In x l -> f x = false) -> filter f l = [].
Proof.
  induction l as [|a l IH]; intros H; simpl; [reflexivity|].
  rewrite (H a (or_introl eq_refl)). apply IH.
  intros x Hx. apply H. now right.
Qed.

(** A key selects exactly one customer when ids are a key and the key is
    present. *)
Lemma one_customer_per_key (k : string) (l : list Customer) :
  NoDup (map id l) ->
  (exists c, In c l /\ id c = k) ->
  List.length (filter (fun c => String.eqb k (id c)) l) = 1%nat.
Proof.
  induction l as [|a l IH]; intros Hnd (c & Hc & Hk); [contradiction Hc|].
  simpl in Hnd. inversion Hnd as [|? ? Hnotin Hnd']; subst.
  simpl. destruct (String.eqb_spec (id c) (id a)) as [E | NE].
  - rewrite filter_none; [reflexivity|].
    intros x Hx. apply String.eqb_neq. intros E'.
    apply Hnotin. rewrite <- E, E'. now apply in_map.
  - apply IH; [exact Hnd'|].
    destruct Hc as [-> | Hc]; [congruence|]. eauto.
Qed.

(** Under the data-model invariant the join has one row per invoice. *)
Lemma join_length (db : Database) :
  referential_integrity db ->
  List.length (invoices_join_customers db) = List.length (invoices_table db).
Proof.
  intros [Hnd Href]. unfold invoices_join_customers.
  induction (invoices_table db) as [|i l IH]; [reflexivity|].
  simpl. rewrite length_app, length_map, IH.
  - rewrite (one_customer_per_key _ _ Hnd); [reflexivity|].
    destruct (Href i (or_introl eq_refl)) as (c & Hc & E). eauto.
  - intros j Hj. apply Href. now right.
Qed.

(** Every joined pair is an invoice with its own customer. *)
Lemma join_In (db : Database) (i : Invoice) (c : Customer) :
  In (i, c) (invoices_join_customers db)
  <-> In i (invoices_table db) /\ In c (customers_table db)
      /\ customer_id i = id c.
Proof.
  unfold invoices_join_customers. rewrite in_flat_map. split.
  - intros (j & Hj & H). apply in_map_iff in H as (d & [= -> ->] & Hd).
    apply filter_In in Hd as [Hd E]. apply String.eqb_eq in E. auto.
  - intros (Hi & Hc & E). exists i. split; [exact Hi|].
    apply in_map, filter_In. split; [exact Hc|]. now apply String.eqb_eq.
Qed.

(** The empty query keeps every joined row. *)
Lemma pattern_empty_query :
  Sql.pattern (wrap "") = inr [Like.AnyRun; Like.AnyRun].
Proof. reflexivity. Qed.

Lemma ilike_everything (x : string) :
  Sql.ilike x [Like.AnyRun; Like.AnyRun] = true.
Proof.
  unfold Sql.ilike. apply matches_any_run.
  exists [], (Text.chars x). split; [reflexivity|].
  apply matches_only_any_run.
Qed.

Lemma matchCount_empty_query (db : Database) :
  matchCount "" db = List.length (invoices_join_customers db).
Proof.
  unfold matchCount. rewrite pattern_empty_query. f_equal.
  apply filter_all. intros [i c] _. unfold invoice_filter.
  now rewrite ilike_everything.
Qed.

(** The conditional sum of the store is the total of the rows in the
    status, and [NULL] exactly on an empty table. *)
Lemma sum_by_status_total (s : Status) (l : list Invoice) :
  Sql.sum (map (amount_if s) l)
  = match l with
    | [] => None
    | _ :: _ => Some (total_with_status s l)
    end.
Proof.
  induction l as [|i l IH]; [reflexivity|].
  cbn [map Sql.sum amount_if]. rewrite IH.
  unfold total_with_status. cbn [filter].
  destruct l as [|j l']; destruct (Status_eqb (status i) s);
    cbn [map fold_right filter]; f_equal; lia.
Qed.

Lemma nullish_sum_by_status (s : Status) (l : list Invoice) :
  nullish (Sql.sum (map (amount_if s) l)) 0 = total_with_status s l.
Proof.
  rewrite sum_by_status_total. now destruct l.
Qed.

(* ================================================================== *)
(** ** Each function, run from an empty console *)
(* ================================================================== *)

Ltac run_call :=
  unfold run, failed, try_catch, log_and_rethrow, bind, await, await_all3,
    console_error, throw, ret, sql.

Lemma fetchRevenue_run (st : Store) :
  run (fetchRevenue st)
  = match fault st SelectRevenue with
    | Some d => failed "Database Error (fetchRevenue):" msg_fetchRevenue d
    | None => ([], inr (revenue_table (tables st)))
    end.
Proof.
  unfold fetchRevenue. run_call. now destruct (fault st SelectRevenue).
Qed.

Lemma fetchLatestInvoices_run (fmt : Z -> string) (st : Store) :
  run (fetchLatestInvoices fmt st)
  = match fault st SelectLatestInvoices with
    | Some d =>
        failed "Database Error (fetchLatestInvoices):"
          msg_fetchLatestInvoices d
    | None =>
        ([], inr (map (latest_view fmt)
                    (firstn 5
                       (Sql.order_by_ties date_desc
                          (ties st SelectLatestInvoices 0)
                          (invoices_join_customers (tables st))))))
    end.
Proof.
  unfold fetchLatestInvoices. run_call.
  destruct (fault st SelectLatestInvoices); [reflexivity|].
  unfold select_latest_invoices. cbn beta iota. rewrite map_map.
  do 2 f_equal. apply map_ext. now intros [i c].
Qed.

Lemma fetchCardData_run (fmt : Z -> string) (st : Store) :
  run (fetchCardData fmt st)
  = match fault st CountInvoices, fault st CountCustomers,
          fault st SumByStatus with
    | None, None, None =>
        ([], inr (mkCardData
                    (of_int (Z.of_nat
                               (List.length (customers_table (tables st)))))
                    (of_int (Z.of_nat
                               (List.length (invoices_table (tables st)))))
                    (fmt (total_with_status paid
                            (invoices_table (tables st))))
                    (fmt (total_with_status pending
                            (invoices_table (tables st))))))
    | Some e1, None, None =>
        failed "Database Error (fetchCardData):" msg_fetchCardData e1
    | None, Some e2, None =>
        failed "Database Error (fetchCardData):" msg_fetchCardData e2
    | None, None, Some e3 =>
        failed "Database Error (fetchCardData):" msg_fetchCardData e3
    | Some e1, Some e2, None =>
        failed "Database Error (fetchCardData):" msg_fetchCardData
          (snd (earlier (latency st CountInvoices, e1)
                  (latency st CountCustomers, e2)))
    | Some e1, None, Some e3 =>
        failed "Database Error (fetchCardData):" msg_fetchCardData
          (snd (earlier (latency st CountInvoices, e1)
                  (latency st SumByStatus, e3)))
    | None, Some e2, Some e3 =>
        failed "Database Error (fetchCardData):" msg_fetchCardData
          (snd (earlier (latency st CountCustomers, e2)
                  (latency st SumByStatus, e3)))
    | Some e1, Some e2, Some e3 =>
        failed "Database Error (fetchCardData):" msg_fetchCardData
          (snd (earlier
                  (earlier (latency st CountInvoices, e1)
                     (latency st CountCustomers, e2))
                  (latency st SumByStatus, e3)))
    end.
Proof.
  unfold fetchCardData. run_call.
  destruct (fault st CountInvoices), (fault st CountCustomers),
    (fault st SumByStatus); try reflexivity.
  unfold count_invoices, count_customers, sum_by_status, card_data.
  cbn [first_field first_nullable nullish count sums_paid sums_pending].
  now rewrite !Number_decimal, !nullish_sum_by_status.
Qed.

Lemma fetchFilteredInvoices_run (st : Store) (query : string) (page : Z)
    (p : list Like.token) :
  Sql.pattern (wrap query) = inr p ->
  run (fetchFilteredInvoices st query page)
  = match fault st SelectFilteredInvoices with
    | Some d =>
        failed "Database Error (fetchFilteredInvoices):"
          msg_fetchFilteredInvoices d
    | None =>
        match Sql.limit_offset (Z.to_nat ITEMS_PER_PAGE)
                ((page - 1) * ITEMS_PER_PAGE)
                (filtered_invoices_ties
                   (ties st SelectFilteredInvoices
                      ((page - 1) * ITEMS_PER_PAGE))
                   p (tables st)) with
        | inl d =>
            failed "Database Error (fetchFilteredInvoices):"
              msg_fetchFilteredInvoices d
        | inr rows => ([], inr (map invoices_table_row rows))
        end
    end.
Proof.
  intros Hp. unfold fetchFilteredInvoices. run_call.
  destruct (fault st SelectFilteredInvoices); [reflexivity|].
  unfold select_filtered_invoices. fold (wrap query). rewrite Hp.
  now destruct (Sql.limit_offset _ _ _).
Qed.

Lemma fetchInvoicesPages_run (st : Store) (query : string) :
  run (fetchInvoicesPages st query)
  = match fault st CountFilteredInvoices with
    | Some d =>
        failed "Database Error (fetchInvoicesPages):" msg_fetchInvoicesPages d
    | None =>
        ([], inr (of_int
                    (Qceiling
                       (inject_Z (Z.of_nat (matchCount query (tables st)))
                        / inject_Z ITEMS_PER_PAGE))))
    end.
Proof.
  destruct (pattern_wrap query) as [p Hp].
  unfold fetchInvoicesPages. run_call.
  destruct (fault st CountFilteredInvoices); [reflexivity|].
  unfold count_filtered_invoices, matchCount.
  fold (wrap query). rewrite Hp. cbn [first_field nullish count].
  now rewrite Number_decimal.
Qed.

Lemma fetchInvoiceById_run (st : Store) (key : string) :
  run (fetchInvoiceById st key)
  = match fault st SelectInvoiceById with
    | Some d =>
        failed "Database Error (fetchInvoiceById):" msg_fetchInvoiceById d
    | None =>
        ([], inr (option_map
                    (fun inv =>
                       mkInvoiceForm (invoice_id inv) (customer_id inv)
                         (Finite (inject_Z (amount inv) / inject_Z 100))
                         (status inv))
                    (find (fun i => String.eqb (invoice_id i) key)
                       (invoices_table (tables st)))))
    end.
Proof.
  unfold fetchInvoiceById. run_call.
  destruct (fault st SelectInvoiceById); [reflexivity|].
  unfold select_invoice_by_id.
  induction (invoices_table (tables st)) as [|i l IH]; [reflexivity|].
  cbn [filter find]. destruct (String.eqb (invoice_id i) key); [|exact IH].
  reflexivity.
Qed.

Lemma fetchCustomers_run (st : Store) :
  run (fetchCustomers st)
  = match fault st SelectCustomers with
    | Some d => failed "Database Error (fetchCustomers):" msg_fetchCustomers d
    | None =>
        ([], inr (map (fun c => mkCustomerField (id c) (name c))
                    (Sql.order_by_ties name_asc (ties st SelectCustomers 0)
                       (customers_table (tables st)))))
    end.
Proof.
  unfold fetchCustomers. run_call. now destruct (fault st SelectCustomers).
Qed.

Lemma fetchFilteredCustomers_run (fmt : Z -> string) (st : Store)
    (query : string) (p : list Like.token) :
  Sql.pattern (wrap query) = inr p ->
  run (fetchFilteredCustomers fmt st query)
  = match fault st SelectFilteredCustomers with
    | Some d =>
        failed "Database Error (fetchFilteredCustomers):"
          msg_fetchFilteredCustomers d
    | None =>
        let rows :=
          filter (customer_filter p)
            (customers_left_join_invoices (tables st)) in
        ([], inr (map
                    (fun k =>
                       let c := customer_summary rows k in
                       mkCustomersTableType (cr_id c) (cr_name c)
                         (cr_email c) (cr_image_url c) (cr_total_invoices c)
                         (format_if_finite fmt (cr_total_pending c))
                         (format_if_finite fmt (cr_total_paid c)))
                    (Sql.order_by_ties name_asc
                       (ties st SelectFilteredCustomers 0)
                       (group_keys (map fst rows)))))
    end.
Proof.
  intros Hp. unfold fetchFilteredCustomers. run_call.
  destruct (fault st SelectFilteredCustomers); [reflexivity|].
  unfold select_filtered_customers. fold (wrap query). rewrite Hp.
  cbn beta iota zeta. now rewrite map_map.
Qed.

(* ================================================================== *)
(** ** Pagination *)
(* ================================================================== *)

Lemma some_field_contains_b_spec (query : string) (r : Invoice * Customer) :
  some_field_contains_b query r = true <-> some_field_contains query r.
Proof.
  unfold some_field_contains_b, some_field_contains.
  rewrite !orb_true_iff, !infix_ci_spec. tauto.
Qed.

(** For a plain query the filter of the statements is the substring test. *)
Lemma invoice_filter_plain (query : string) (r : Invoice * Customer) :
  invoice_filter
    (Like.AnyRun :: map Like.Lit (Text.chars query) ++ [Like.AnyRun])%list r
  = some_field_contains_b query r.
Proof.
  apply eq_true_iff_eq. rewrite some_field_contains_b_spec.
  destruct r as [i c]. unfold invoice_filter, some_field_contains.
  rewrite !orb_true_iff, !ilike_literals. cbn [fst snd]. tauto.
Qed.

Lemma substring_count_plain (query : string) (db : Database) :
  plain query = true -> substring_count query db = matchCount query db.
Proof.
  intros Hq. unfold substring_count, matchCount.
  rewrite (pattern_plain _ Hq). f_equal. apply filter_ext.
  intros r. symmetry. apply invoice_filter_plain.
Qed.

(** C1, as stated, fails in two ways.  A query that holds a character
    [ILIKE] gives a meaning to is not a substring: on a store with one
    invoice, no text of which has an underscore, [fetchInvoicesPages("_")]
    returns 1, not [ceil(0 / 6)].  And the rows counted are joined rows: an
    invoice that refers to no customer is not among them, so that the count
    for the empty query is 7 on a table of 8 invoices. *)
Lemma fetchInvoicesPages_not_substring_count :
  run (fetchInvoicesPages More.store1 "_") = ([], inr (of_int 1))
  /\ substring_count "_" More.db1 = 0%nat
  /\ run (fetchInvoicesPages More.store1 "_")
     <> ([], inr (of_int
                    (Qceiling
                       (inject_Z (Z.of_nat (substring_count "_" More.db1))
                        / inject_Z ITEMS_PER_PAGE))))
  /\ substring_count "" More.db8 = 7%nat
  /\ List.length (invoices_table More.db8) = 8%nat.
Proof.
  split; [reflexivity|]. split; [reflexivity|].
  split; [|split; reflexivity].
  vm_compute. intros H. discriminate H.
Qed.

(** C1, amended.  For a query without [%], [_] and backslash, when the
    store answers the counting statement, [fetchInvoicesPages(query)]
    returns [ceil(matchCount(query) / 6)], the least whole number of pages
    of six rows that hold the [matchCount(query)] invoice rows, joined with
    their customer, one of whose five texts contains the query as a
    substring up to case.  With the empty query every joined row counts;
    when customer ids are a key and every invoice refers to an existing
    customer these are as many as the invoice table has rows. *)
Theorem fetchInvoicesPages_ceil (st : Store) (query : string) :
  plain query = true ->
  fault st CountFilteredInvoices = None ->
  run (fetchInvoicesPages st query)
  = ([], inr (of_int
                (Qceiling
                   (inject_Z (Z.of_nat (substring_count query (tables st)))
                    / inject_Z ITEMS_PER_PAGE))))
  /\ (6 * (Qceiling
             (inject_Z (Z.of_nat (substring_count query (tables st)))
              / inject_Z ITEMS_PER_PAGE) - 1)
      < Z.of_nat (substring_count query (tables st))
      <= 6 * Qceiling
               (inject_Z (Z.of_nat (substring_count query (tables st)))
                / inject_Z ITEMS_PER_PAGE))%Z
  /\ (referential_integrity (tables st) ->
      substring_count "" (tables st)
      = List.length (invoices_table (tables st))).
Proof.
  intros Hq Hf. split; [|split].
  - rewrite fetchInvoicesPages_run, Hf.
    now rewrite (substring_count_plain _ _ Hq).
  - apply ceil_pages.
  - intros Hri.
    rewrite (substring_count_plain "" _ eq_refl), matchCount_empty_query.
    now apply join_length.
Qed.

(** The rows of a safe page, with the offset as a natural number. *)
Lemma fetchFilteredInvoices_rows (st : Store) (query : string) (page : Z)
    (p : list Like.token) :
  Sql.pattern (wrap query) = inr p ->
  (1 <= page)%Z ->
  ((page - 1) * ITEMS_PER_PAGE <= MAX_SAFE_INTEGER)%Z ->
  fault st SelectFilteredInvoices = None ->
  run (fetchFilteredInvoices st query page)
  = ([], inr (map invoices_table_row
                (firstn 6
                   (skipn (6 * Z.to_nat (page - 1))
                      (filtered_invoices_ties
                         (ties st SelectFilteredInvoices
                            ((page - 1) * ITEMS_PER_PAGE))
                         p (tables st)))))).
Proof.
  intros Hp Hpage Hsafe Hf.
  rewrite (fetchFilteredInvoices_run _ _ _ _ Hp), Hf.
  unfold Sql.limit_offset, Sql.BIGINT_MAX, MAX_SAFE_INTEGER, ITEMS_PER_PAGE
    in *.
  destruct (Z.ltb_spec ((page - 1) * 6) 0) as [Hneg | _]; [lia|].
  destruct (Z.ltb_spec (2 ^ 63 - 1) ((page - 1) * 6)) as [Hbig | _]; [lia|].
  replace (Z.to_nat ((page - 1) * 6)) with (6 * Z.to_nat (page - 1))%nat
    by lia.
  reflexivity.
Qed.

(** C2, as stated, fails on a page number whose offset is beyond the range
    of the [OFFSET] parameter: the store rejects the statement and the call
    throws instead of returning rows. *)
Lemma fetchFilteredInvoices_huge_page_throws :
  (1 <= 2000000000000000000)%Z
  /\ snd (run (fetchFilteredInvoices Sample.store7 "smith"
                2000000000000000000))
     = inl (Error "Failed to fetch invoices.").
Proof. split; [lia | reflexivity]. Qed.

(** C2, amended.  For a page number [page >= 1] whose offset
    [(page - 1) * 6] is a safe integer, when the store answers,
    [fetchFilteredInvoices(query, page)] returns at most six rows: those
    that follow the first [(page - 1) * 6] in an arrangement by date
    descending of the joined rows that pass the filter. *)
Theorem fetchFilteredInvoices_page (st : Store) (query : string) (page : Z) :
  (1 <= page)%Z ->
  ((page - 1) * ITEMS_PER_PAGE <= MAX_SAFE_INTEGER)%Z ->
  fault st SelectFilteredInvoices = None ->
  exists p listing rows,
    Sql.pattern (wrap query) = inr p
    /\ run (fetchFilteredInvoices st query page) = ([], inr rows)
    /\ Permutation
         (filter (invoice_filter p) (invoices_join_customers (tables st)))
         listing
    /\ StronglySorted no_older listing
    /\ rows
       = map invoices_table_row
           (firstn 6 (skipn (Z.to_nat ((page - 1) * 6)) listing))
    /\ (List.length rows <= 6)%nat.
Proof.
  intros Hpage Hsafe Hf. destruct (pattern_wrap query) as [p Hp].
  exists p,
    (filtered_invoices_ties
       (ties st SelectFilteredInvoices ((page - 1) * ITEMS_PER_PAGE))
       p (tables st)).
  eexists. split; [exact Hp|].
  split; [exact (fetchFilteredInvoices_rows _ _ _ _ Hp Hpage Hsafe Hf)|].
  split; [apply order_by_ties_perm|].
  split; [apply order_by_ties_sorted;
          [apply date_desc_total | apply date_desc_trans]|].
  split.
  - replace (Z.to_nat ((page - 1) * 6)) with (6 * Z.to_nat (page - 1))%nat
      by lia.
    reflexivity.
  - rewrite length_map. apply firstn_le_length.
Qed.

(* ================================================================== *)
(** ** Lookup of one invoice *)
(* ================================================================== *)

Lemma find_absent (key : string) (l : list Invoice) :
  (forall i, In i l -> invoice_id i <> key) ->
  find (fun i => String.eqb (invoice_id i) key) l = None.
Proof.
  induction l as [|i l IH]; intros H; [reflexivity|].
  simpl. destruct (String.eqb_spec (invoice_id i) key) as [E | _].
  - now destruct (H i (or_introl eq_refl)).
  - apply IH. intros j Hj. apply H. now right.
Qed.

Lemma find_first (key : string) (l : list Invoice) (inv : Invoice) :
  In inv l -> invoice_id inv = key ->
  exists found,
    find (fun i => String.eqb (invoice_id i) key) l = Some found
    /\ In found l /\ invoice_id found = key.
Proof.
  induction l as [|i l IH]; intros Hin Hk; [contradiction Hin|].
  simpl. destruct (String.eqb_spec (invoice_id i) key) as [E | NE].
  - exists i. auto.
  - destruct Hin as [-> | Hin]; [contradiction|].
    destruct (IH Hin Hk) as (found & Hf & Hl & Hid). eauto.
Qed.

Lemma key_determines_row (l : list Invoice) (a b : Invoice) :
  NoDup (map invoice_id l) -> In a l -> In b l ->
  invoice_id a = invoice_id b -> a = b.
Proof.
  induction l as [|i l IH]; intros Hnd Ha Hb E; [contradiction Ha|].
  simpl in Hnd. inversion Hnd as [|? ? Hnotin Hnd']; subst.
  destruct Ha as [-> | Ha], Hb as [-> | Hb]; auto.
  - destruct Hnotin. rewrite E. now apply in_map.
  - destruct Hnotin. rewrite <- E. now apply in_map.
Qed.

(** C4.  When the store answers and no invoice row has the id,
    [fetchInvoiceById(id)] returns [undefined]: nothing is thrown and
    nothing is logged. *)
Theorem fetchInvoiceById_not_found (st : Store) (key : string) :
  fault st SelectInvoiceById = None ->
  (forall i, In i (invoices_table (tables st)) -> invoice_id i <> key) ->
  run (fetchInvoiceById st key) = ([], inr None).
Proof.
  intros Hf Hnone. rewrite fetchInvoiceById_run, Hf.
  now rewrite (find_absent _ _ Hnone).
Qed.

Lemma In_firstn {A : Type} (n : nat) (l : list A) (x : A) :
  In x (firstn n l) -> In x l.
Proof.
  intros H. rewrite <- (firstn_skipn n l). apply in_or_app. now left.
Qed.

Lemma In_skipn {A : Type} (n : nat) (l : list A) (x : A) :
  In x (skipn n l) -> In x l.
Proof.
  intros H. rewrite <- (firstn_skipn n l). apply in_or_app. now right.
Qed.

Lemma returned_inj {A : Type} (log log' : list LogLine) (a b : A) :
  (log, @inr Thrown A a) = (log', inr b) -> b = a.
Proof. congruence. Qed.

(** The rows of [fetchFilteredInvoices] carry the stored amount. *)
Lemma fetchFilteredInvoices_amounts (st : Store) (query : string) (page : Z)
    (log : list LogLine) (rows : list InvoicesTable) :
  run (fetchFilteredInvoices st query page) = (log, inr rows) ->
  forall row, In row rows ->
    exists i c,
      In (i, c) (invoices_join_customers (tables st))
      /\ it_id row = invoice_id i /\ it_amount row = amount i.
Proof.
  destruct (pattern_wrap query) as [p Hp].
  rewrite (fetchFilteredInvoices_run _ _ _ _ Hp).
  destruct (fault st SelectFilteredInvoices); [discriminate|].
  unfold Sql.limit_offset. destruct (_ <? 0)%Z; [discriminate|].
  destruct (_ <? _)%Z; [discriminate|].
  intros E row Hrow. apply returned_inj in E. subst rows.
  apply in_map_iff in Hrow as ([i c] & <- & Hin).
  apply In_firstn, In_skipn in Hin. unfold filtered_invoices_ties in Hin.
  apply order_by_ties_In, filter_In in Hin as [Hin _].
  exists i, c. auto.
Qed.

(** The rows of [fetchLatestInvoices] carry the formatted amount. *)
Lemma fetchLatestInvoices_amounts (fmt : Z -> string) (st : Store)
    (log : list LogLine) (rows : list LatestInvoice) :
  run (fetchLatestInvoices fmt st) = (log, inr rows) ->
  forall row, In row rows ->
    exists i c,
      In (i, c) (invoices_join_customers (tables st))
      /\ li_id row = invoice_id i /\ li_amount row = fmt (amount i).
Proof.
  rewrite fetchLatestInvoices_run.
  destruct (fault st SelectLatestInvoices); [discriminate|].
  intros E row Hrow. apply returned_inj in E. subst rows.
  apply in_map_iff in Hrow as ([i c] & <- & Hin).
  apply In_firstn, order_by_ties_In in Hin.
  exists i, c. auto.
Qed.

(** The totals of [fetchCardData] are formatted sums. *)
Lemma fetchCardData_amounts (fmt : Z -> string) (st : Store)
    (log : list LogLine) (card : CardData) :
  run (fetchCardData fmt st) = (log, inr card) ->
  totalPaidInvoices card
  = fmt (total_with_status paid (invoices_table (tables st)))
  /\ totalPendingInvoices card
     = fmt (total_with_status pending (invoices_table (tables st))).
Proof.
  rewrite fetchCardData_run.
  destruct (fault st CountInvoices), (fault st CountCustomers),
    (fault st SumByStatus); try discriminate.
  intros E. apply returned_inj in E. subst card. auto.
Qed.

(** The totals of [fetchFilteredCustomers] are formatted integers. *)
Lemma fetchFilteredCustomers_amounts (fmt : Z -> string) (st : Store)
    (query : string) (log : list LogLine) (rows : list CustomersTableType) :
  run (fetchFilteredCustomers fmt st query) = (log, inr rows) ->
  forall row, In row rows ->
    exists a b : Z,
      ct_total_pending row = fmt a /\ ct_total_paid row = fmt b.
Proof.
  destruct (pattern_wrap query) as [p Hp].
  rewrite (fetchFilteredCustomers_run _ _ _ _ Hp).
  destruct (fault st SelectFilteredCustomers); [discriminate|].
  cbn zeta. intros E row Hrow. apply returned_inj in E. subst rows.
  apply in_map_iff in Hrow as (k & <- & _). cbn [ct_total_pending ct_total_paid].
  unfold format_if_finite.
  destruct (cr_total_pending _), (cr_total_paid _); eauto.
Qed.

(** C5.  When the store answers and an invoice row has the id,
    [fetchInvoiceById(id)] returns a stored row with that id (the row, when
    invoice ids are a key) with its amount divided by 100, the other columns
    as stored.  The other functions that return amounts return the stored
    integer ([fetchFilteredInvoices]) or a formatted string
    ([fetchLatestInvoices], [fetchCardData], [fetchFilteredCustomers]). *)
Theorem fetchInvoiceById_major_units (fmt : Z -> string) (st : Store)
    (key : string) (inv : Invoice) :
  fault st SelectInvoiceById = None ->
  In inv (invoices_table (tables st)) ->
  invoice_id inv = key ->
  (exists found form q,
      run (fetchInvoiceById st key) = ([], inr (Some form))
      /\ In found (invoices_table (tables st))
      /\ invoice_id found = key
      /\ (NoDup (map invoice_id (invoices_table (tables st))) -> found = inv)
      /\ if_id form = key
      /\ if_customer_id form = customer_id found
      /\ if_status form = status found
      /\ if_amount form = Finite q
      /\ q == inject_Z (amount found) / inject_Z 100)
  /\ (forall query page log rows,
        run (fetchFilteredInvoices st query page) = (log, inr rows) ->
        forall row, In row rows ->
          exists i c,
            In (i, c) (invoices_join_customers (tables st))
            /\ it_id row = invoice_id i /\ it_amount row = amount i)
  /\ (forall log rows,
        run (fetchLatestInvoices fmt st) = (log, inr rows) ->
        forall row, In row rows ->
          exists i c,
            In (i, c) (invoices_join_customers (tables st))
            /\ li_id row = invoice_id i /\ li_amount row = fmt (amount i))
  /\ (forall log card,
        run (fetchCardData fmt st) = (log, inr card) ->
        totalPaidInvoices card
        = fmt (total_with_status paid (invoices_table (tables st)))
        /\ totalPendingInvoices card
           = fmt (total_with_status pending (invoices_table (tables st))))
  /\ (forall query log rows,
        run (fetchFilteredCustomers fmt st query) = (log, inr rows) ->
        forall row, In row rows ->
          exists a b : Z,
            ct_total_pending row = fmt a /\ ct_total_paid row = fmt b).
Proof.
  intros Hf Hin Hk. split; [|repeat split].
  - destruct (find_first key _ inv Hin Hk) as (found & Hfind & Hl & Hid).
    exists found. eexists. exists (inject_Z (amount found) / inject_Z 100)%Q.
    rewrite fetchInvoiceById_run, Hf, Hfind. cbn [option_map].
    split; [reflexivity|]. split; [exact Hl|]. split; [exact Hid|].
    split.
    + intros Hnd. apply (key_determines_row _ _ _ Hnd Hl Hin). congruence.
    + cbn. repeat split; try assumption; reflexivity.
  - apply fetchFilteredInvoices_amounts.
  - apply fetchLatestInvoices_amounts.
  - eapply fetchCardData_amounts; eassumption.
  - eapply fetchCardData_amounts; eassumption.
  - apply fetchFilteredCustomers_amounts.
Qed.

(* ================================================================== *)
(** ** The latest invoices *)
(* ================================================================== *)

(** C6, as stated, fails on a store with fewer than five invoices: with two
    invoices [fetchLatestInvoices] returns two rows. *)
Lemma fetchLatestInvoices_two_rows :
  exists rows,
    run (fetchLatestInvoices Sample.usd Sample.store2) = ([], inr rows)
    /\ List.length rows = 2%nat
    /\ List.length rows <> 5%nat.
Proof.
  eexists. split; [vm_compute; reflexivity|]. split; [reflexivity|].
  discriminate.
Qed.

(** C6, amended.  When the store answers, [fetchLatestInvoices()] returns
    the [min 5 n] most recent of the [n] invoice rows that join a customer
    (so exactly five when there are at least five): the rows returned are
    ordered by date descending, no joined row left out is more recent than
    a returned one, and each returned row carries the invoice id, the name,
    email and image url of the invoice's own customer, and the formatted
    amount. *)
Theorem fetchLatestInvoices_most_recent (fmt : Z -> string) (st : Store) :
  fault st SelectLatestInvoices = None ->
  exists top rest,
    run (fetchLatestInvoices fmt st) = ([], inr (map (latest_view fmt) top))
    /\ Permutation (invoices_join_customers (tables st)) (top ++ rest)
    /\ List.length top
       = Nat.min 5 (List.length (invoices_join_customers (tables st)))
    /\ StronglySorted no_older top
    /\ (forall x y, In x top -> In y rest -> no_older x y)
    /\ (forall i c, In (i, c) top ->
          In i (invoices_table (tables st))
          /\ In c (customers_table (tables st))
          /\ customer_id i = id c).
Proof.
  intros Hf.
  set (sorted := Sql.order_by_ties date_desc (ties st SelectLatestInvoices 0)
                   (invoices_join_customers (tables st))).
  assert (Hs : StronglySorted no_older sorted)
    by (apply order_by_ties_sorted;
        [apply date_desc_total | apply date_desc_trans]).
  exists (firstn 5 sorted), (skipn 5 sorted).
  rewrite fetchLatestInvoices_run, Hf. split; [reflexivity|].
  split; [rewrite firstn_skipn; apply order_by_ties_perm|].
  split; [rewrite length_firstn; unfold sorted;
          now rewrite order_by_ties_length|].
  split; [now apply sorted_firstn|].
  split.
  - intros x y. now apply sorted_firstn_skipn.
  - intros i c H. apply In_firstn, order_by_ties_In in H. now apply join_In.
Qed.

(* ================================================================== *)
(** ** The summary cards *)
(* ================================================================== *)

(** C7.  When the store answers the three statements, [fetchCardData()]
    returns the row counts of the two tables and the formatted sums of the
    amounts of the paid and of the pending invoices. *)
Theorem fetchCardData_counts_and_sums (fmt : Z -> string) (st : Store) :
  fault st CountInvoices = None ->
  fault st CountCustomers = None ->
  fault st SumByStatus = None ->
  exists card,
    run (fetchCardData fmt st) = ([], inr card)
    /\ numberOfInvoices card
       = of_int (Z.of_nat (List.length (invoices_table (tables st))))
    /\ numberOfCustomers card
       = of_int (Z.of_nat (List.length (customers_table (tables st))))
    /\ totalPaidInvoices card
       = fmt (total_with_status paid (invoices_table (tables st)))
    /\ totalPendingInvoices card
       = fmt (total_with_status pending (invoices_table (tables st))).
Proof.
  intros H1 H2 H3. eexists. rewrite fetchCardData_run, H1, H2, H3.
  repeat split.
Qed.

(** C10.  On an empty invoice table the two sums the store yields are
    [NULL]; [fetchCardData()] still returns, with [numberOfInvoices = 0] and
    both totals the formatted zero.  More generally the shaping turns a
    [NULL] sum, and a missing first row, into zero before formatting. *)
Theorem fetchCardData_empty_invoices (fmt : Z -> string) (st : Store) :
  invoices_table (tables st) = [] ->
  fault st CountInvoices = None ->
  fault st CountCustomers = None ->
  fault st SumByStatus = None ->
  sum_by_status (tables st) = inr [mkStatusSums None None]
  /\ (exists card,
        run (fetchCardData fmt st) = ([], inr card)
        /\ numberOfInvoices card = of_int 0
        /\ totalPaidInvoices card = fmt 0%Z
        /\ totalPendingInvoices card = fmt 0%Z)
  /\ (forall counts counts',
        totalPaidInvoices (card_data fmt counts counts' []) = fmt 0%Z
        /\ totalPendingInvoices (card_data fmt counts counts' []) = fmt 0%Z
        /\ numberOfInvoices (card_data fmt [] counts' []) = of_int 0)
  /\ (forall counts counts' more,
        totalPaidInvoices
          (card_data fmt counts counts' (mkStatusSums None None :: more))
        = fmt 0%Z
        /\ totalPendingInvoices
             (card_data fmt counts counts' (mkStatusSums None None :: more))
           = fmt 0%Z).
Proof.
  intros He H1 H2 H3. split; [|split; [|split]].
  - unfold sum_by_status. now rewrite He.
  - eexists. rewrite fetchCardData_run, H1, H2, H3, He. repeat split.
  - intros counts counts'. repeat split.
  - intros counts counts' more. repeat split.
Qed.

(* ================================================================== *)
(** ** The customer table *)
(* ================================================================== *)

Lemma same_group_eq (a b : Customer) : same_group a b = true <-> a = b.
Proof.
  unfold same_group. destruct a as [i n e u], b as [i' n' e' u']. simpl.
  rewrite !andb_true_iff, !String.eqb_eq. split.
  - intros [[[-> ->] ->] H]. f_equal.
    destruct u, u'; try discriminate; [|reflexivity].
    apply String.eqb_eq in H. now subst.
  - intros [= -> -> -> ->]. repeat split.
    destruct u'; [apply String.eqb_refl | reflexivity].
Qed.

(** Every customer of the filtered join has its group. *)
Lemma group_keys_In (l : list Customer) (c : Customer) :
  In c (group_keys l) <-> In c l.
Proof.
  induction l as [|a l IH]; [reflexivity|].
  simpl. rewrite filter_In, IH. split.
  - intros [H | [H _]]; auto.
  - intros [H | H]; [now left|].
    destruct (same_group a c) eqn:E.
    + left. now apply same_group_eq.
    + right. split; [exact H | reflexivity].
Qed.

(** A customer without invoices is one row of the left join, with [NULL]
    invoice columns. *)
Lemma left_join_no_invoice (db : Database) (c : Customer) :
  In c (customers_table db) ->
  (forall i, In i (invoices_table db) -> customer_id i <> id c) ->
  In (c, None) (customers_left_join_invoices db)
  /\ forall o, In (c, o) (customers_left_join_invoices db) -> o = None.
Proof.
  intros Hc Hnone.
  assert (E : filter (fun i => String.eqb (id c) (customer_id i))
                (invoices_table db) = []).
  { apply filter_none. intros i Hi. apply String.eqb_neq.
    intros E. now apply (Hnone i Hi). }
  unfold customers_left_join_invoices. split.
  - apply in_flat_map. exists c. split; [exact Hc|]. rewrite E. now left.
  - intros o Ho. apply in_flat_map in Ho as (c' & Hc' & Ho).
    destruct (filter (fun i => String.eqb (id c') (customer_id i))
                (invoices_table db)) as [|j found] eqn:F.
    + simpl in Ho. destruct Ho as [Ho | []]. congruence.
    + apply in_map_iff in Ho as (i & Ho & _).
      assert (c' = c) by congruence. subst c'.
      rewrite E in F. discriminate F.
Qed.

(** A sum reaches the function as decimal text or as [null]; neither is a
    finite number, so the formatted total is that of zero. *)
Lemma format_bigint (fmt : Z -> string) (v : option Z) :
  format_if_finite fmt (bigint_value v) = fmt 0.
Proof. now destruct v. Qed.

(** C9.  When the store answers, a customer without invoices whose name or
    email passes the [WHERE] clause of the statement is a row of
    [fetchFilteredCustomers(query)], with [total_invoices = 0] and both
    totals the formatted zero. *)
Theorem fetchFilteredCustomers_no_invoices (fmt : Z -> string) (st : Store)
    (query : string) (p : list Like.token) (c : Customer) :
  fault st SelectFilteredCustomers = None ->
  Sql.pattern (wrap query) = inr p ->
  In c (customers_table (tables st)) ->
  (forall i, In i (invoices_table (tables st)) -> customer_id i <> id c) ->
  Sql.ilike (name c) p || Sql.ilike (email c) p = true ->
  exists rows row,
    run (fetchFilteredCustomers fmt st query) = ([], inr rows)
    /\ In row rows
    /\ ct_id row = id c
    /\ ct_name row = name c
    /\ ct_email row = email c
    /\ ct_image_url row = image_url c
    /\ ct_total_invoices row = 0%Z
    /\ ct_total_pending row = fmt 0%Z
    /\ ct_total_paid row = fmt 0%Z.
Proof.
  intros Hf Hp Hc Hnone Hmatch.
  destruct (left_join_no_invoice _ c Hc Hnone) as [Hrow Honly].
  rewrite (fetchFilteredCustomers_run _ _ _ _ Hp), Hf. cbn zeta.
  set (rows := filter (customer_filter p)
                 (customers_left_join_invoices (tables st))).
  assert (Hin : In (c, None) rows) by (apply filter_In; auto).
  assert (Hg : forall r,
             In r (filter (fun r => same_group c (fst r)) rows) ->
             snd r = None).
  { intros [c' o] Hr. apply filter_In in Hr as [Hr E].
    apply same_group_eq in E. simpl in E. subst c'.
    apply filter_In in Hr as [Hr _]. simpl. now apply Honly. }
  eexists. eexists. split; [reflexivity|]. split.
  - apply in_map_iff. exists c. split; [reflexivity|].
    apply order_by_ties_In, group_keys_In, in_map_iff. now exists (c, None).
  - cbn [ct_id ct_name ct_email ct_image_url ct_total_invoices
           ct_total_pending ct_total_paid customer_summary cr_id cr_name
           cr_email cr_image_url cr_total_invoices cr_total_pending
           cr_total_paid].
    repeat split.
    + unfold count_invoice_ids. rewrite filter_none; [reflexivity|].
      intros r Hr. now rewrite (Hg r Hr).
    + apply format_bigint.
    + apply format_bigint.
Qed.

(* ================================================================== *)
(** ** The search filter *)
(* ================================================================== *)

(** C8, as stated, fails on a query that holds a character [ILIKE] gives a
    meaning to: the query ["_"] keeps a row none of whose five texts has an
    underscore. *)
Lemma underscore_query_keeps_row_without_underscore :
  exists p,
    Sql.pattern (wrap "_") = inr p
    /\ invoice_filter p (Sample.inv 1 15795 4 pending, Sample.smith) = true
    /\ ~ some_field_contains "_"
           (Sample.inv 1 15795 4 pending, Sample.smith).
Proof.
  eexists. split; [reflexivity|]. split; [reflexivity|].
  unfold some_field_contains. rewrite <- !infix_ci_spec.
  intros [H | [H | [H | [H | H]]]]; vm_compute in H; discriminate H.
Qed.

(** C8, amended.  For a query without [%], [_] and backslash, a joined row
    passes the filter of [fetchFilteredInvoices] and [fetchInvoicesPages] if
    and only if one of customer name, customer email, amount as text, date
    as text, or status contains the query as a substring, up to case; the
    listing draws its rows from exactly these and the page count counts
    them. *)
Theorem invoice_filter_plain_query (query : string) (db : Database) :
  plain query = true ->
  exists p,
    Sql.pattern (wrap query) = inr p
    /\ (forall r, invoice_filter p r = true <-> some_field_contains query r)
    /\ (forall r,
          In r (filtered_invoices p db)
          <-> In r (invoices_join_customers db)
              /\ some_field_contains query r)
    /\ matchCount query db
       = List.length
           (filter (invoice_filter p) (invoices_join_customers db)).
Proof.
  intros Hq. eexists. split; [exact (pattern_plain _ Hq)|].
  assert (Hiff : forall r,
    invoice_filter
      (Like.AnyRun :: map Like.Lit (Text.chars query) ++ [Like.AnyRun])%list r
    = true <-> some_field_contains query r).
  { intros [i c]. unfold invoice_filter, some_field_contains.
    rewrite !orb_true_iff, !ilike_literals. cbn [fst snd]. tauto. }
  split; [exact Hiff|]. split.
  - intros r. unfold filtered_invoices.
    now rewrite order_by_In, filter_In, Hiff.
  - unfold matchCount. now rewrite (pattern_plain _ Hq).
Qed.

(* ================================================================== *)
(** ** Errors *)
(* ================================================================== *)

Ltac all_answered :=
  split; [reflexivity|];
  let s := fresh "s" in
  let H := fresh "H" in
  intros s H; simpl in H;
  repeat (destruct H as [<- | H]; [assumption|]); contradiction H.

Ltac failed_on stmt :=
  split; [reflexivity|]; eexists; split; [reflexivity|];
  right; exists stmt; split; [simpl; tauto | assumption].

Ltac failed_in_store :=
  split; [reflexivity|]; eexists; split; [reflexivity|];
  left;
  let s := fresh "s" in
  let H := fresh "H" in
  intros s H; simpl in H;
  repeat (destruct H as [<- | H]; [assumption|]); contradiction H.

Lemma outcome_settles (fmt : Z -> string) (c : Call) (st : Store) :
  settles c st (outcome fmt c st).
Proof.
  destruct c as [| | |q page|q|key| |q]; unfold outcome, observe.
  - rewrite fetchRevenue_run.
    destruct (fault st SelectRevenue) eqn:F;
      [failed_on SelectRevenue | all_answered].
  - rewrite fetchLatestInvoices_run.
    destruct (fault st SelectLatestInvoices) eqn:F;
      [failed_on SelectLatestInvoices | all_answered].
  - rewrite fetchCardData_run.
    destruct (fault st CountInvoices) eqn:F1,
      (fault st CountCustomers) eqn:F2, (fault st SumByStatus) eqn:F3;
      unfold earlier; cbn [fst snd];
      repeat match goal with
             | |- context [if ?b then _ else _] => destruct b; cbn [fst snd]
             end;
      first [ failed_on CountInvoices | failed_on CountCustomers
            | failed_on SumByStatus | all_answered ].
  - destruct (pattern_wrap q) as [p Hp].
    rewrite (fetchFilteredInvoices_run _ _ _ _ Hp).
    destruct (fault st SelectFilteredInvoices) eqn:F;
      [failed_on SelectFilteredInvoices|].
    destruct (Sql.limit_offset _ _ _); [failed_in_store | all_answered].
  - rewrite fetchInvoicesPages_run.
    destruct (fault st CountFilteredInvoices) eqn:F;
      [failed_on CountFilteredInvoices | all_answered].
  - rewrite fetchInvoiceById_run.
    destruct (fault st SelectInvoiceById) eqn:F;
      [failed_on SelectInvoiceById | all_answered].
  - rewrite fetchCustomers_run.
    destruct (fault st SelectCustomers) eqn:F;
      [failed_on SelectCustomers | all_answered].
  - destruct (pattern_wrap q) as [p Hp].
    rewrite (fetchFilteredCustomers_run _ _ _ _ Hp).
    destruct (fault st SelectFilteredCustomers) eqn:F;
      [failed_on SelectFilteredCustomers | all_answered].
Qed.

(** C3.  Whichever of the eight functions is called, and whichever of its
    statements the store fails on, with whatever detail: the storage error
    is logged under the function's tag, and what the caller gets is a fresh
    [Error] with the function's fixed message, a value that has no place
    for the detail.  More generally nothing else than that [Error] is ever
    thrown by a call. *)
Theorem storage_failure_is_opaque (fmt : Z -> string) (c : Call) (st : Store)
    (s : Statement) (detail : string) :
  In s (statements_of c) ->
  fault st s = Some detail ->
  (exists s' d,
      In s' (statements_of c)
      /\ fault st s' = Some d
      /\ outcome fmt c st
         = ([(tag_of c, StorageError d)], Some (Error (message_of c))))
  /\ (forall st' log e,
        outcome fmt c st' = (log, Some e) -> e = Error (message_of c)).
Proof.
  intros Hs Hfault. split.
  - pose proof (outcome_settles fmt c st) as H.
    destruct (outcome fmt c st) as [log [e|]]; simpl in H.
    + destruct H as (-> & d & -> & [Hnone | (s' & Hs' & Hd)]).
      * rewrite (Hnone s Hs) in Hfault. discriminate Hfault.
      * exists s', d. auto.
    + destruct H as [_ Hnone].
      rewrite (Hnone s Hs) in Hfault. discriminate Hfault.
  - intros st' log e H.
    pose proof (outcome_settles fmt c st') as H'. rewrite H in H'.
    now destruct H' as [-> _].
Qed.

(* ================================================================== *)
(** ** The properties at work on the sample stores *)
(* ================================================================== *)

Lemma db7_integrity : referential_integrity Sample.db7.
Proof.
  split.
  - simpl. repeat constructor; simpl; intuition discriminate.
  - intros i H. exists Sample.smith. simpl in H.
    repeat (destruct H as [<- | H]; [simpl; auto|]). contradiction H.
Qed.

(** Seven rows match ["smith"]: two pages, of six rows and of one row. *)
Example smith_two_pages :
  run (fetchInvoicesPages Sample.store7 "smith") = ([], inr (of_int 2))
  /\ option_map (@List.length _)
       (match snd (run (fetchFilteredInvoices Sample.store7 "smith" 1)) with
        | inr rows => Some rows
        | inl _ => None
        end) = Some 6%nat
  /\ option_map (@List.length _)
       (match snd (run (fetchFilteredInvoices Sample.store7 "smith" 2)) with
        | inr rows => Some rows
        | inl _ => None
        end) = Some 1%nat.
Proof. repeat split. Qed.

(** Jane Doe has no invoice: one row, with zero totals. *)
Example jane_zero_totals :
  run (fetchFilteredCustomers Sample.usd Sample.store7 "jane")
  = ([], inr [mkCustomersTableType "c2" "Jane Doe" "jane@doe.example"
                (Some "/customers/jane.png") 0 "$0.00" "$0.00"]).
Proof. reflexivity. Qed.

(** A page number below 1 makes the store reject the offset. *)
Example page_zero_fails :
  run (fetchFilteredInvoices Sample.store7 "smith" 0)
  = ([("Database Error (fetchFilteredInvoices):",
       StorageError "OFFSET must not be negative")],
     inl (Error "Failed to fetch invoices.")).
Proof. reflexivity. Qed.

Lemma fetchInvoicesPages_ceil_witness :
  plain "smith" = true
  /\ fault Sample.store7 CountFilteredInvoices = None
  /\ run (fetchInvoicesPages Sample.store7 "smith") = ([], inr (of_int 2))
  /\ substring_count "smith" Sample.db7 = 7%nat
  /\ substring_count "" Sample.db7 = 7%nat.
Proof.
  split; [reflexivity|]. split; [reflexivity|].
  destruct (fetchInvoicesPages_ceil Sample.store7 "smith" eq_refl eq_refl)
    as (H1 & _ & H3).
  split; [exact H1|]. split; [reflexivity | exact (H3 db7_integrity)].
Defined.

Lemma fetchFilteredInvoices_page_witness :
  (1 <= 2)%Z
  /\ ((2 - 1) * ITEMS_PER_PAGE <= MAX_SAFE_INTEGER)%Z
  /\ fault Sample.store7 SelectFilteredInvoices = None
  /\ exists p listing rows,
       Sql.pattern (wrap "smith") = inr p
       /\ run (fetchFilteredInvoices Sample.store7 "smith" 2) = ([], inr rows)
       /\ Permutation
            (filter (invoice_filter p)
               (invoices_join_customers (tables Sample.store7)))
            listing
       /\ StronglySorted no_older listing
       /\ rows
          = map invoices_table_row
              (firstn 6 (skipn (Z.to_nat ((2 - 1) * 6)) listing))
       /\ (List.length rows <= 6)%nat.
Proof.
  split; [lia|]. split; [vm_compute; discriminate|]. split; [reflexivity|].
  apply fetchFilteredInvoices_page;
    [lia | vm_compute; discriminate | reflexivity].
Defined.

Lemma storage_failure_is_opaque_witness :
  In CountCustomers (statements_of CallCardData)
  /\ fault (Sample.broken CountCustomers "ECONNREFUSED 10.0.0.5:5432")
       CountCustomers
     = Some "ECONNREFUSED 10.0.0.5:5432"
  /\ (exists s' d,
         In s' (statements_of CallCardData)
         /\ fault (Sample.broken CountCustomers "ECONNREFUSED 10.0.0.5:5432")
              s' = Some d
         /\ outcome Sample.usd CallCardData
              (Sample.broken CountCustomers "ECONNREFUSED 10.0.0.5:5432")
            = ([(tag_of CallCardData, StorageError d)],
               Some (Error (message_of CallCardData))))
  /\ (forall st' log e,
        outcome Sample.usd CallCardData st' = (log, Some e) ->
        e = Error (message_of CallCardData)).
Proof.
  split; [simpl; tauto|]. split; [reflexivity|].
  apply (storage_failure_is_opaque Sample.usd CallCardData
           (Sample.broken CountCustomers "ECONNREFUSED 10.0.0.5:5432")
           CountCustomers "ECONNREFUSED 10.0.0.5:5432");
    [simpl; tauto | reflexivity].
Defined.

Lemma fetchInvoiceById_not_found_witness :
  fault Sample.store7 SelectInvoiceById = None
  /\ (forall i, In i (invoices_table (tables Sample.store7)) ->
        invoice_id i <> "zz")
  /\ run (fetchInvoiceById Sample.store7 "zz") = ([], inr None).
Proof.
  assert (H : forall i, In i (invoices_table (tables Sample.store7)) ->
                invoice_id i <> "zz").
  { intros i Hi. simpl in Hi.
    repeat (destruct Hi as [<- | Hi]; [discriminate|]). contradiction Hi. }
  split; [reflexivity|]. split; [exact H|].
  apply fetchInvoiceById_not_found; [reflexivity | exact H].
Defined.

Lemma fetchInvoiceById_major_units_witness :
  fault Sample.store7 SelectInvoiceById = None
  /\ In (Sample.inv 3 3040 1 paid) (invoices_table (tables Sample.store7))
  /\ invoice_id (Sample.inv 3 3040 1 paid) = "i3"
  /\ exists found form q,
       run (fetchInvoiceById Sample.store7 "i3") = ([], inr (Some form))
       /\ In found (invoices_table (tables Sample.store7))
       /\ invoice_id found = "i3"
       /\ (NoDup (map invoice_id (invoices_table (tables Sample.store7))) ->
           found = Sample.inv 3 3040 1 paid)
       /\ if_id form = "i3"
       /\ if_customer_id form = customer_id found
       /\ if_status form = status found
       /\ if_amount form = Finite q
       /\ q == inject_Z (amount found) / inject_Z 100.
Proof.
  split; [reflexivity|]. split; [simpl; tauto|]. split; [reflexivity|].
  apply (fetchInvoiceById_major_units Sample.usd Sample.store7 "i3"
           (Sample.inv 3 3040 1 paid));
    [reflexivity | simpl; tauto | reflexivity].
Defined.

Lemma fetchLatestInvoices_most_recent_witness :
  fault Sample.store7 SelectLatestInvoices = None
  /\ exists top rest,
       run (fetchLatestInvoices Sample.usd Sample.store7)
       = ([], inr (map (latest_view Sample.usd) top))
       /\ Permutation (invoices_join_customers (tables Sample.store7))
            (top ++ rest)
       /\ List.length top
          = Nat.min 5
              (List.length (invoices_join_customers (tables Sample.store7)))
       /\ StronglySorted no_older top
       /\ (forall x y, In x top -> In y rest -> no_older x y)
       /\ (forall i c, In (i, c) top ->
             In i (invoices_table (tables Sample.store7))
             /\ In c (customers_table (tables Sample.store7))
             /\ customer_id i = id c).
Proof.
  split; [reflexivity|].
  apply (fetchLatestInvoices_most_recent Sample.usd Sample.store7).
  reflexivity.
Defined.

Lemma fetchCardData_counts_and_sums_witness :
  fault Sample.store7 CountInvoices = None
  /\ fault Sample.store7 CountCustomers = None
  /\ fault Sample.store7 SumByStatus = None
  /\ exists card,
       run (fetchCardData Sample.usd Sample.store7) = ([], inr card)
       /\ numberOfInvoices card
          = of_int
              (Z.of_nat (List.length (invoices_table (tables Sample.store7))))
       /\ numberOfCustomers card
          = of_int
              (Z.of_nat (List.length (customers_table (tables Sample.store7))))
       /\ totalPaidInvoices card
          = Sample.usd
              (total_with_status paid (invoices_table (tables Sample.store7)))
       /\ totalPendingInvoices card
          = Sample.usd
              (total_with_status pending
                 (invoices_table (tables Sample.store7))).
Proof.
  do 3 (split; [reflexivity|]).
  apply (fetchCardData_counts_and_sums Sample.usd Sample.store7);
    reflexivity.
Defined.

Lemma fetchCardData_empty_invoices_witness :
  invoices_table (tables Sample.store0) = []
  /\ fault Sample.store0 CountInvoices = None
  /\ fault Sample.store0 CountCustomers = None
  /\ fault Sample.store0 SumByStatus = None
  /\ sum_by_status (tables Sample.store0) = inr [mkStatusSums None None]
  /\ exists card,
       run (fetchCardData Sample.usd Sample.store0) = ([], inr card)
       /\ numberOfInvoices card = of_int 0
       /\ totalPaidInvoices card = "$0.00"
       /\ totalPendingInvoices card = "$0.00".
Proof.
  do 4 (split; [reflexivity|]).
  destruct (fetchCardData_empty_invoices Sample.usd Sample.store0 eq_refl
              eq_refl eq_refl eq_refl) as (H1 & H2 & _).
  split; [exact H1 | exact H2].
Defined.

Lemma invoice_filter_plain_query_witness :
  plain "smith" = true
  /\ exists p,
       Sql.pattern (wrap "smith") = inr p
       /\ (forall r,
             invoice_filter p r = true <-> some_field_contains "smith" r)
       /\ (forall r,
             In r (filtered_invoices p Sample.db7)
             <-> In r (invoices_join_customers Sample.db7)
                 /\ some_field_contains "smith" r)
       /\ matchCount "smith" Sample.db7
          = List.length
              (filter (invoice_filter p)
                 (invoices_join_customers Sample.db7)).
Proof.
  split; [reflexivity|].
  apply (invoice_filter_plain_query "smith" Sample.db7). reflexivity.
Defined.

Lemma fetchFilteredCustomers_no_invoices_witness :
  fault Sample.store7 SelectFilteredCustomers = None
  /\ Sql.pattern (wrap "jane")
     = inr [Like.AnyRun; Like.Lit "j"; Like.Lit "a"; Like.Lit "n";
            Like.Lit "e"; Like.AnyRun]
  /\ In Sample.jane (customers_table (tables Sample.store7))
  /\ (forall i, In i (invoices_table (tables Sample.store7)) ->
        customer_id i <> id Sample.jane)
  /\ exists rows row,
       run (fetchFilteredCustomers Sample.usd Sample.store7 "jane")
       = ([], inr rows)
       /\ In row rows
       /\ ct_id row = id Sample.jane
       /\ ct_name row = name Sample.jane
       /\ ct_email row = email Sample.jane
       /\ ct_image_url row = image_url Sample.jane
       /\ ct_total_invoices row = 0%Z
       /\ ct_total_pending row = "$0.00"
       /\ ct_total_paid row = "$0.00".
Proof.
  assert (H : forall i, In i (invoices_table (tables Sample.store7)) ->
                customer_id i <> id Sample.jane).
  { intros i Hi. simpl in Hi.
    repeat (destruct Hi as [<- | Hi]; [discriminate|]). contradiction Hi. }
  split; [reflexivity|]. split; [reflexivity|]. split; [simpl; tauto|].
  split; [exact H|].
  apply (fetchFilteredCustomers_no_invoices Sample.usd Sample.store7 "jane"
           [Like.AnyRun; Like.Lit "j"; Like.Lit "a"; Like.Lit "n";
            Like.Lit "e"; Like.AnyRun] Sample.jane);
    [reflexivity | reflexivity | simpl; tauto | exact H | reflexivity].
Defined.

(* ================================================================== *)
(** ** Paging through the invoice listing *)
(* ================================================================== *)


Lemma page_count_bounds (query : string) (db : Database) :
  (6 * page_count query db < matchCount query db + 6)%nat
  /\ (matchCount query db <= 6 * page_count query db)%nat.
Proof.
  unfold page_count.
  pose proof (ceil_pages (Z.of_nat (matchCount query db))) as H.
  unfold ITEMS_PER_PAGE in *. lia.
Qed.


Lemma matchCount_filtered_ties (query : string) (db : Database)
    (p : list Like.token) (rank : nat -> nat) :
  Sql.pattern (wrap query) = inr p ->
  matchCount query db = List.length (filtered_invoices_ties rank p db).
Proof.
  intros Hp. unfold matchCount, filtered_invoices_ties.
  now rewrite Hp, order_by_ties_length.
Qed.

(** X1.  The size of each safe page: six rows as long as six are left, then
    the remainder, then nothing.  A page is empty exactly when its number is
    beyond the page count of [fetchInvoicesPages]. *)
Theorem fetchFilteredInvoices_page_size (st : Store) (query : string)
    (page : Z) :
  (1 <= page)%Z ->
  ((page - 1) * ITEMS_PER_PAGE <= MAX_SAFE_INTEGER)%Z ->
  fault st SelectFilteredInvoices = None ->
  exists rows,
    run (fetchFilteredInvoices st query page) = ([], inr rows)
    /\ List.length rows
       = Nat.min 6
           (matchCount query (tables st) - 6 * Z.to_nat (page - 1))
    /\ (rows = [] <-> (page_count query (tables st) < Z.to_nat page)%nat).
Proof.
  intros Hpage Hsafe Hf. destruct (pattern_wrap query) as [p Hp].
  eexists.
  split; [exact (fetchFilteredInvoices_rows _ _ _ _ Hp Hpage Hsafe Hf)|].
  match goal with
  | |- List.length ?rows = _ /\ _ =>
      assert (Hlen :
        List.length rows
        = Nat.min 6
            (matchCount query (tables st) - 6 * Z.to_nat (page - 1)))
  end.
  { now rewrite length_map, length_firstn, length_skipn,
      <- (matchCount_filtered_ties _ _ _ _ Hp). }
  split; [exact Hlen|].
  destruct (page_count_bounds query (tables st)) as [Hlo Hhi].
  split.
  - intros E. rewrite E in Hlen. cbn [List.length] in Hlen. lia.
  - intros Hbeyond. apply length_zero_iff_nil. rewrite Hlen. lia.
Qed.

Lemma date_leb_antisym (a b : Date) :
  date_leb a b = true -> date_leb b a = true -> a = b.
Proof.
  rewrite !date_leb_lex. destruct a as [y m d], b as [y' m' d'].
  cbn [d_year d_month d_day]. intros H1 H2. f_equal; lia.
Qed.




Lemma In_window {A : Type} (m x : nat) (a : A) :
  forall l, In a (firstn m (skipn x l)) -> In a (firstn (x + m) l).
Proof.
  induction x as [|x IH]; intros l H; [exact H|].
  destruct l as [|b l]; [now rewrite firstn_nil in H|].
  right. now apply IH.
Qed.

Lemma In_skipn_le {A : Type} (x y : nat) (b : A) (l : list A) :
  (x <= y)%nat -> In b (skipn y l) -> In b (skipn x l).
Proof.
  intros Hxy H. replace y with ((y - x) + x)%nat in H by lia.
  rewrite <- skipn_skipn in H. now apply In_skipn in H.
Qed.

(** The rows a page returns when the store answers: none when the store
    rejects the offset, otherwise a window of six of an arrangement by date
    descending. *)
Lemma page_rows_cases (st : Store) (query : string) (page : Z)
    (p : list Like.token) :
  Sql.pattern (wrap query) = inr p ->
  (1 <= page)%Z ->
  fault st SelectFilteredInvoices = None ->
  returned_rows (run (fetchFilteredInvoices st query page)) = []
  \/ returned_rows (run (fetchFilteredInvoices st query page))
     = map invoices_table_row
         (firstn 6
            (skipn (6 * Z.to_nat (page - 1))
               (filtered_invoices_ties
                  (ties st SelectFilteredInvoices
                     ((page - 1) * ITEMS_PER_PAGE))
                  p (tables st)))).
Proof.
  intros Hp Hpage Hf. rewrite (fetchFilteredInvoices_run _ _ _ _ Hp), Hf.
  unfold Sql.limit_offset, ITEMS_PER_PAGE.
  destruct (Z.ltb_spec ((page - 1) * 6) 0) as [Hneg | _]; [lia|].
  destruct (Sql.BIGINT_MAX <? (page - 1) * 6)%Z; [now left|].
  right. unfold returned_rows. cbn [snd].
  replace (Z.to_nat ((page - 1) * 6)) with (6 * Z.to_nat (page - 1))%nat
    by lia.
  reflexivity.
Qed.

(** Whatever the ranks, the dates of the listing come in one order. *)
Lemma listing_dates (r1 r2 : nat -> nat) (p : list Like.token)
    (db : Database) :
  map (fun r : Invoice * Customer => date (fst r))
    (filtered_invoices_ties r1 p db)
  = map (fun r : Invoice * Customer => date (fst r))
      (filtered_invoices_ties r2 p db).
Proof.
  apply (sorted_perm_unique (fun d1 d2 => date_leb d2 d1 = true)).
  - intros x y _ _ Hxy Hyx. now apply date_leb_antisym.
  - apply sorted_map.
    apply (order_by_ties_sorted date_desc);
      [apply date_desc_total | apply date_desc_trans].
  - apply sorted_map.
    apply (order_by_ties_sorted date_desc);
      [apply date_desc_total | apply date_desc_trans].
  - apply Permutation_map. unfold filtered_invoices_ties.
    now rewrite <- !order_by_ties_perm.
Qed.

(** X3.  Each page of [fetchFilteredInvoices] is in date-descending order, and so
    are the pages among themselves: no row of a later page is more recent
    than a row of an earlier one. *)
Theorem pages_newest_first (st : Store) (query : string) (j k : Z) :
  (1 <= j)%Z ->
  (j <= k)%Z ->
  fault st SelectFilteredInvoices = None ->
  StronglySorted newest_first
    (returned_rows (run (fetchFilteredInvoices st query j)))
  /\ ((j < k)%Z ->
      forall a b,
        In a (returned_rows (run (fetchFilteredInvoices st query j))) ->
        In b (returned_rows (run (fetchFilteredInvoices st query k))) ->
        newest_first a b).
Proof.
  intros Hj Hjk Hf. destruct (pattern_wrap query) as [p Hp].
  destruct (page_rows_cases st query j p Hp Hj Hf) as [-> | ->].
  - split; [constructor | intros _ a b []].
  - split.
    + apply sorted_map.
      apply (sorted_impl no_older); [now intros [i c] [i' c']|].
      apply (sorted_firstn date_desc), (sorted_skipn no_older).
      apply order_by_ties_sorted;
        [apply date_desc_total | apply date_desc_trans].
    + intros Hlt a b Ha Hb.
      destruct (page_rows_cases st query k p Hp ltac:(lia) Hf) as [E | E];
        rewrite E in Hb; [contradiction Hb|].
      apply in_map_iff in Ha as (x & <- & Hx).
      apply in_map_iff in Hb as (y & <- & Hy).
      apply (in_map (fun r : Invoice * Customer => date (fst r))) in Hx, Hy.
      rewrite <- firstn_map, <- skipn_map in Hx, Hy.
      rewrite (listing_dates _
                 (ties st SelectFilteredInvoices ((j - 1) * ITEMS_PER_PAGE)))
        in Hy.
      apply In_window in Hx. apply In_firstn in Hy.
      apply (In_skipn_le (6 * Z.to_nat (j - 1) + 6)) in Hy; [|lia].
      assert (Hs : StronglySorted (fun d1 d2 => date_leb d2 d1 = true)
                     (map (fun r : Invoice * Customer => date (fst r))
                        (filtered_invoices_ties
                           (ties st SelectFilteredInvoices
                              ((j - 1) * ITEMS_PER_PAGE))
                           p (tables st)))).
      { apply sorted_map.
        apply (order_by_ties_sorted date_desc);
          [apply date_desc_total | apply date_desc_trans]. }
      pose proof (sorted_firstn_skipn (fun d1 d2 => date_leb d2 d1) _ _ Hs
                    _ _ Hx Hy) as H.
      destruct x as [i c], y as [i' c']. exact H.
Qed.

(** X4.  A page number below 1 makes the offset negative; the store rejects it
    and the call throws its fixed error, whatever the query. *)
Theorem fetchFilteredInvoices_page_below_one (st : Store) (query : string)
    (page : Z) :
  (page < 1)%Z ->
  fault st SelectFilteredInvoices = None ->
  run (fetchFilteredInvoices st query page)
  = ([("Database Error (fetchFilteredInvoices):",
       StorageError "OFFSET must not be negative")],
     inl (Error "Failed to fetch invoices.")).
Proof.
  intros Hpage Hf. destruct (pattern_wrap query) as [p Hp].
  rewrite (fetchFilteredInvoices_run _ _ _ _ Hp), Hf.
  unfold Sql.limit_offset, ITEMS_PER_PAGE.
  destruct (Z.ltb_spec ((page - 1) * 6) 0) as [_ | Hpos]; [reflexivity|lia].
Qed.

(* ================================================================== *)
(** ** The customer selection list *)
(* ================================================================== *)

Lemma string_leb_trans (a b c : string) :
  String.leb a b = true -> String.leb b c = true -> String.leb a c = true.
Proof.
  unfold String.leb. revert b c.
  induction a as [|x a IH]; intros [|y b] [|z c]; simpl; try easy.
  unfold Ascii.compare.
  destruct (N.compare_spec (N_of_ascii x) (N_of_ascii y)) as [E1 | L1 | G1];
    destruct (N.compare_spec (N_of_ascii y) (N_of_ascii z)) as [E2 | L2 | G2];
    destruct (N.compare_spec (N_of_ascii x) (N_of_ascii z)) as [E3 | L3 | G3];
    try easy; try lia.
  apply IH.
Qed.

(** X5.  [fetchCustomers()] returns one [(id, name)] pair per customer row, in
    ascending order of name. *)
Theorem fetchCustomers_sorted (st : Store) :
  fault st SelectCustomers = None ->
  exists rows,
    run (fetchCustomers st) = ([], inr rows)
    /\ Permutation
         (map (fun c => mkCustomerField (id c) (name c))
            (customers_table (tables st)))
         rows
    /\ StronglySorted
         (fun a b => String.leb (cf_name a) (cf_name b) = true) rows.
Proof.
  intros Hf. eexists. rewrite fetchCustomers_run, Hf.
  split; [reflexivity|]. split.
  - apply Permutation_map, order_by_ties_perm.
  - apply sorted_map.
    apply (order_by_ties_sorted name_asc).
    + intros a b. apply String.leb_total.
    + intros a b c. apply string_leb_trans.
Qed.

(* ================================================================== *)
(** ** The search text is read without regard to case *)
(* ================================================================== *)

Lemma special_char_cases (x : ascii) :
  plain_char x = false ->
  x = "\"%char \/ x = "%"%char \/ x = "_"%char.
Proof.
  unfold plain_char. rewrite negb_false_iff, !orb_true_iff, !Ascii.eqb_eq.
  tauto.
Qed.

(** Case folding neither makes nor unmakes a pattern character. *)
Lemma lower_special (a x : ascii) :
  plain_char x = false -> Text.lower a = x -> a = x.
Proof.
  intros Hx E. subst x.
  destruct a as [[] [] [] [] [] [] [] []];
    vm_compute in Hx; try discriminate Hx; reflexivity.
Qed.

Lemma same_case_eqb (a b x : ascii) :
  Text.lower a = Text.lower b ->
  plain_char x = false ->
  Ascii.eqb a x = Ascii.eqb b x.
Proof.
  intros E Hx.
  assert (Hfix : Text.lower x = x)
    by (destruct (special_char_cases x Hx) as [-> | [-> | ->]]; reflexivity).
  destruct (Ascii.eqb_spec a x) as [-> | Na], (Ascii.eqb_spec b x) as [-> | Nb];
    try reflexivity.
  - destruct Nb. apply lower_special; [exact Hx|]. congruence.
  - destruct Na. apply lower_special; [exact Hx|]. congruence.
Qed.

Lemma compile_same_case (n : nat) :
  forall l1 l2,
    (List.length l1 <= n)%nat ->
    Forall2 (fun a b => Text.lower a = Text.lower b) l1 l2 ->
    match Like.compile l1, Like.compile l2 with
    | Some p1, Some p2 => Forall2 token_same p1 p2
    | None, None => True
    | _, _ => False
    end.
Proof.
  induction n as [|n IH]; intros l1 l2 Hlen HF.
  - destruct HF; [simpl; constructor | simpl in Hlen; lia].
  - destruct HF as [|a b l1 l2 Hab HF]; [simpl; constructor|].
    simpl in Hlen. cbn [Like.compile].
    rewrite (same_case_eqb a b "\" Hab eq_refl),
      (same_case_eqb a b "%" Hab eq_refl),
      (same_case_eqb a b "_" Hab eq_refl).
    destruct (Ascii.eqb b "\").
    + destruct HF as [|d d' l1 l2 Hd HF]; [exact I|].
      simpl in Hlen. specialize (IH l1 l2 ltac:(lia) HF).
      destruct (Like.compile l1), (Like.compile l2); try exact IH.
      cbn [option_map]. constructor; [exact Hd | exact IH].
    + specialize (IH l1 l2 ltac:(lia) HF).
      destruct (Ascii.eqb b "%"); [|destruct (Ascii.eqb b "_")];
        destruct (Like.compile l1), (Like.compile l2); try exact IH;
        cbn [option_map]; constructor; (exact IH || exact I || exact Hab).
Qed.

Lemma matches_any_run_eq (p : list Like.token) (s : list ascii) :
  Like.matches (Like.AnyRun :: p) s
  = Like.matches p s
    || match s with
       | [] => false
       | _ :: s' => Like.matches (Like.AnyRun :: p) s'
       end.
Proof. now destruct s. Qed.

Lemma matches_same_case (p1 p2 : list Like.token) :
  Forall2 token_same p1 p2 ->
  forall s, Like.matches p1 s = Like.matches p2 s.
Proof.
  induction 1 as [|t1 t2 p1 p2 Ht Hp IH]; intros s; [reflexivity|].
  destruct t1, t2; simpl in Ht; try contradiction.
  - induction s as [|c s IHs].
    + rewrite !matches_any_run_eq. now rewrite IH.
    + rewrite (matches_any_run_eq p1), (matches_any_run_eq p2).
      now rewrite IH, IHs.
  - destruct s; simpl; [reflexivity | apply IH].
  - destruct s; simpl; [reflexivity|]. now rewrite Ht, IH.
Qed.

Lemma same_case_Forall2 (l1 l2 : list ascii) :
  Text.fold_case l1 = Text.fold_case l2 ->
  Forall2 (fun a b => Text.lower a = Text.lower b) l1 l2.
Proof.
  revert l2. induction l1 as [|a l1 IH]; intros [|b l2] E;
    try discriminate E; constructor.
  - now injection E.
  - apply IH. now injection E.
Qed.

(** Two queries that differ in case only are bound to patterns that keep
    the same texts. *)
Lemma ilike_same_case (q1 q2 : string) (p1 p2 : list Like.token) :
  same_up_to_case q1 q2 ->
  Sql.pattern (wrap q1) = inr p1 ->
  Sql.pattern (wrap q2) = inr p2 ->
  forall x, Sql.ilike x p1 = Sql.ilike x p2.
Proof.
  unfold same_up_to_case, Sql.pattern. intros E H1 H2 x.
  pose proof (compile_same_case (List.length (Text.chars (wrap q1)))
                (Text.chars (wrap q1)) (Text.chars (wrap q2)) (le_n _)) as H.
  rewrite !chars_wrap in *.
  assert (HF : Forall2 (fun a b => Text.lower a = Text.lower b)
                 ("%"%char :: Text.chars q1 ++ ["%"%char])
                 ("%"%char :: Text.chars q2 ++ ["%"%char])).
  { constructor; [reflexivity|]. apply Forall2_app.
    - now apply same_case_Forall2.
    - now constructor. }
  specialize (H HF).
  destruct (Like.compile _) as [t1|]; [|discriminate H1].
  destruct (Like.compile _) as [t2|]; [|discriminate H2].
  injection H1 as <-. injection H2 as <-.
  apply (matches_same_case _ _ H).
Qed.

(** X6.  The search is case-insensitive in the query as well as in the data:
    two queries that differ only in the case of ASCII letters give the same
    invoice pages, the same page count and the same customer table. *)
Theorem search_ignores_query_case (fmt : Z -> string) (st : Store)
    (q1 q2 : string) (page : Z) :
  same_up_to_case q1 q2 ->
  run (fetchFilteredInvoices st q1 page)
  = run (fetchFilteredInvoices st q2 page)
  /\ run (fetchInvoicesPages st q1) = run (fetchInvoicesPages st q2)
  /\ run (fetchFilteredCustomers fmt st q1)
     = run (fetchFilteredCustomers fmt st q2).
Proof.
  intros E.
  destruct (pattern_wrap q1) as [p1 H1], (pattern_wrap q2) as [p2 H2].
  pose proof (ilike_same_case _ _ _ _ E H1 H2) as Hx.
  assert (Hinv : filter (invoice_filter p1)
                   (invoices_join_customers (tables st))
                 = filter (invoice_filter p2)
                     (invoices_join_customers (tables st))).
  { apply filter_ext. intros [i c]. unfold invoice_filter.
    now rewrite !Hx. }
  assert (Hcus : filter (customer_filter p1)
                   (customers_left_join_invoices (tables st))
                 = filter (customer_filter p2)
                     (customers_left_join_invoices (tables st))).
  { apply filter_ext. intros r. unfold customer_filter. now rewrite !Hx. }
  split; [|split].
  - rewrite (fetchFilteredInvoices_run _ _ _ _ H1),
      (fetchFilteredInvoices_run _ _ _ _ H2).
    unfold filtered_invoices_ties. now rewrite Hinv.
  - rewrite !fetchInvoicesPages_run. unfold matchCount.
    now rewrite H1, H2, Hinv.
  - rewrite (fetchFilteredCustomers_run _ _ _ _ H1),
      (fetchFilteredCustomers_run _ _ _ _ H2).
    cbn zeta. now rewrite Hcus.
Qed.

(* ================================================================== *)
(** ** The customer table, in general *)
(* ================================================================== *)

Lemma left_join_rows (db : Database) :
  customers_left_join_invoices db
  = flat_map (left_rows db) (customers_table db).
Proof. reflexivity. Qed.

Lemma left_rows_fst (db : Database) (c : Customer)
    (r : Customer * option Invoice) :
  In r (left_rows db c) -> fst r = c.
Proof.
  unfold left_rows. destruct (invoices_of c db) as [|i l].
  - intros [<- | []]. reflexivity.
  - intros H. apply in_map_iff in H as (j & <- & _). reflexivity.
Qed.

Lemma left_rows_inhabited (db : Database) (c : Customer) :
  exists o, In (c, o) (left_rows db c).
Proof.
  unfold left_rows. destruct (invoices_of c db) as [|i l].
  - exists None. now left.
  - exists (Some i). now left.
Qed.

(** A filter on the customer columns acts on the left join customer by
    customer. *)
Lemma filter_left_join (db : Database) (g : Customer -> bool)
    (l : list Customer) :
  filter (fun r => g (fst r)) (flat_map (left_rows db) l)
  = flat_map (left_rows db) (filter g l).
Proof.
  induction l as [|c l IH]; [reflexivity|].
  cbn [flat_map filter]. rewrite filter_app, IH.
  destruct (g c) eqn:E.
  - cbn [flat_map]. f_equal. apply filter_all.
    intros r Hr. now rewrite (left_rows_fst _ _ _ Hr).
  - rewrite filter_none; [reflexivity|].
    intros r Hr. now rewrite (left_rows_fst _ _ _ Hr).
Qed.

Lemma filter_own_key (k : Customer) (l : list Customer) :
  NoDup l -> In k l -> filter (same_group k) l = [k].
Proof.
  induction 1 as [|c l Hc Hl IH]; intros Hin; [contradiction Hin|].
  cbn [filter]. destruct (same_group k c) eqn:E.
  - apply same_group_eq in E. subst c. f_equal.
    apply filter_none. intros x Hx.
    destruct (same_group k x) eqn:F; [|reflexivity].
    apply same_group_eq in F. now subst x.
  - destruct Hin as [-> | Hin]; [|now apply IH].
    assert (same_group k k = true) by now apply same_group_eq.
    congruence.
Qed.

(** The group of a customer, when customer rows are not repeated, is what
    that customer contributes to the join. *)
Lemma group_of_customer (db : Database) (p : list Like.token)
    (c : Customer) :
  NoDup (customers_table db) ->
  In c (customers_table db) ->
  passes p c = true ->
  filter (fun r => same_group c (fst r))
    (filter (customer_filter p) (customers_left_join_invoices db))
  = left_rows db c.
Proof.
  intros Hnd Hin Hpass. rewrite left_join_rows.
  change (customer_filter p) with (fun r : Customer * option Invoice =>
                                     passes p (fst r)).
  rewrite !filter_left_join, filter_own_key.
  - cbn [flat_map]. apply List.app_nil_r.
  - now apply NoDup_filter.
  - apply filter_In. auto.
Qed.

Lemma count_left_rows (db : Database) (c : Customer) :
  count_invoice_ids (left_rows db c)
  = Z.of_nat (List.length (invoices_of c db)).
Proof.
  unfold count_invoice_ids, left_rows.
  destruct (invoices_of c db) as [|i l]; [reflexivity|].
  rewrite filter_all, length_map; [reflexivity|].
  intros r Hr. apply in_map_iff in Hr as (j & <- & _). reflexivity.
Qed.

(** X7.  When customer rows are not repeated, every customer whose name or
    email passes the [WHERE] clause has its row in
    [fetchFilteredCustomers(query)]: its four columns and the number of its
    invoices.  Both totals of the row are the formatted zero, whatever the
    customer's invoices: the sums reach the function as decimal text, of
    which [Number.isFinite] is false. *)
Theorem fetchFilteredCustomers_totals (fmt : Z -> string) (st : Store)
    (query : string) (p : list Like.token) (c : Customer) :
  fault st SelectFilteredCustomers = None ->
  Sql.pattern (wrap query) = inr p ->
  NoDup (customers_table (tables st)) ->
  In c (customers_table (tables st)) ->
  passes p c = true ->
  exists rows,
    run (fetchFilteredCustomers fmt st query) = ([], inr rows)
    /\ In (customer_row fmt (tables st) c) rows
    /\ ct_total_invoices (customer_row fmt (tables st) c)
       = Z.of_nat (List.length (invoices_of c (tables st)))
    /\ ct_total_pending (customer_row fmt (tables st) c) = fmt 0%Z
    /\ ct_total_paid (customer_row fmt (tables st) c) = fmt 0%Z.
Proof.
  intros Hf Hp Hnd Hin Hpass.
  rewrite (fetchFilteredCustomers_run _ _ _ _ Hp), Hf. cbn zeta.
  eexists. split; [reflexivity|]. split; [|repeat split].
  apply in_map_iff. exists c. split.
  - unfold customer_summary, customer_row.
    cbn [cr_id cr_name cr_email cr_image_url cr_total_invoices
           cr_total_pending cr_total_paid].
    rewrite (group_of_customer _ _ _ Hnd Hin Hpass).
    now rewrite count_left_rows, !format_bigint.
  - apply order_by_ties_In, group_keys_In, in_map_iff.
    destruct (left_rows_inhabited (tables st) c) as [o Ho].
    exists (c, o). split; [reflexivity|].
    apply filter_In. split; [|exact Hpass].
    rewrite left_join_rows. apply in_flat_map. eauto.
Qed.

Lemma group_keys_NoDup (l : list Customer) : NoDup (group_keys l).
Proof.
  induction l as [|c l IH]; simpl; constructor.
  - intros H. apply filter_In in H as [_ H].
    assert (same_group c c = true) by now apply same_group_eq.
    rewrite H0 in H. discriminate H.
  - now apply NoDup_filter.
Qed.

Lemma filtered_customers_In (db : Database) (p : list Like.token)
    (c : Customer) :
  In c (map fst
          (filter (customer_filter p) (customers_left_join_invoices db)))
  <-> In c (customers_table db) /\ passes p c = true.
Proof.
  rewrite in_map_iff, left_join_rows. split.
  - intros ([c' o] & E & H). simpl in E. subst c'.
    apply filter_In in H as [H Hpass]. split; [|exact Hpass].
    apply in_flat_map in H as (c' & Hc' & H).
    apply left_rows_fst in H. simpl in H. now subst c'.
  - intros [Hin Hpass].
    destruct (left_rows_inhabited db c) as [o Ho].
    exists (c, o). split; [reflexivity|].
    apply filter_In. split; [|exact Hpass].
    apply in_flat_map. eauto.
Qed.

(** X8.  [fetchFilteredCustomers(query)] lists exactly the customers whose name
    or email passes the [WHERE] clause, once each, in ascending order of
    name; whether a customer has invoices plays no part. *)
Theorem fetchFilteredCustomers_listing (fmt : Z -> string) (st : Store)
    (query : string) (p : list Like.token) :
  fault st SelectFilteredCustomers = None ->
  Sql.pattern (wrap query) = inr p ->
  exists rows,
    run (fetchFilteredCustomers fmt st query) = ([], inr rows)
    /\ NoDup (map row_customer rows)
    /\ (forall c,
          In c (map row_customer rows)
          <-> In c (customers_table (tables st)) /\ passes p c = true)
    /\ StronglySorted
         (fun a b => String.leb (ct_name a) (ct_name b) = true) rows.
Proof.
  intros Hf Hp.
  rewrite (fetchFilteredCustomers_run _ _ _ _ Hp), Hf. cbn zeta.
  eexists. split; [reflexivity|].
  set (rows := filter (customer_filter p)
                 (customers_left_join_invoices (tables st))).
  set (keys := Sql.order_by_ties name_asc (ties st SelectFilteredCustomers 0)
                 (group_keys (map fst rows))).
  assert (Hid : map row_customer
                  (map
                     (fun k =>
                        mkCustomersTableType
                          (cr_id (customer_summary rows k))
                          (cr_name (customer_summary rows k))
                          (cr_email (customer_summary rows k))
                          (cr_image_url (customer_summary rows k))
                          (cr_total_invoices (customer_summary rows k))
                          (format_if_finite fmt
                             (cr_total_pending (customer_summary rows k)))
                          (format_if_finite fmt
                             (cr_total_paid (customer_summary rows k))))
                     keys)
                = keys).
  { rewrite map_map. rewrite <- (map_id keys) at 2.
    apply map_ext. now intros [i n e u]. }
  rewrite Hid. split; [|split].
  - apply (Permutation_NoDup (order_by_ties_perm name_asc _ _)),
      group_keys_NoDup.
  - intros c. unfold keys. rewrite order_by_ties_In, group_keys_In.
    apply filtered_customers_In.
  - apply sorted_map.
    apply (sorted_impl (fun a b => name_asc a b = true));
      [intros a b H; exact H|].
    apply (order_by_ties_sorted name_asc).
    + intros a b. apply String.leb_total.
    + intros a b c. apply string_leb_trans.
Qed.

(* ================================================================== *)
(** ** Success, and how the functions agree with one another *)
(* ================================================================== *)

(** X9.  A call returns, with a silent console, exactly when the store answers
    every statement it sends ([fetchFilteredInvoices] being called with a
    page number of at least 1 whose offset is a safe integer): within
    these bounds nothing but a storage failure makes a call fail. *)
Theorem call_returns_iff_store_answers (fmt : Z -> string) (c : Call)
    (st : Store) :
  page_ok c ->
  (outcome fmt c st = ([], None)
   <-> forall s, In s (statements_of c) -> fault st s = None).
Proof.
  intros Hpage. split.
  - intros H. pose proof (outcome_settles fmt c st) as H'.
    rewrite H in H'. now destruct H' as [_ H'].
  - intros Hans.
    destruct c as [| | |q page|q|key| |q]; unfold outcome, observe;
      cbn [statements_of] in Hans.
    + rewrite fetchRevenue_run, (Hans SelectRevenue); simpl; auto.
    + rewrite fetchLatestInvoices_run, (Hans SelectLatestInvoices);
        simpl; auto.
    + rewrite fetchCardData_run, (Hans CountInvoices),
        (Hans CountCustomers), (Hans SumByStatus); simpl; auto.
    + destruct (pattern_wrap q) as [p Hp]. destruct Hpage as [H1 H2].
      now rewrite (fetchFilteredInvoices_rows _ _ _ _ Hp H1 H2
                     (Hans _ (or_introl eq_refl))).
    + rewrite fetchInvoicesPages_run, (Hans CountFilteredInvoices);
        simpl; auto.
    + rewrite fetchInvoiceById_run, (Hans SelectInvoiceById); simpl; auto.
    + rewrite fetchCustomers_run, (Hans SelectCustomers); simpl; auto.
    + destruct (pattern_wrap q) as [p Hp].
      rewrite (fetchFilteredCustomers_run _ _ _ _ Hp),
        (Hans SelectFilteredCustomers); simpl; auto.
Qed.

Lemma filter_length_le {A : Type} (f : A -> bool) (l : list A) :
  (List.length (filter f l) <= List.length l)%nat.
Proof.
  induction l as [|a l IH]; simpl; [lia|].
  destruct (f a); simpl; lia.
Qed.

Lemma matchCount_le_all (query : string) (db : Database) :
  (matchCount query db <= matchCount "" db)%nat.
Proof.
  rewrite matchCount_empty_query. unfold matchCount.
  destruct (Sql.pattern (wrap query)); [lia | apply filter_length_le].
Qed.

(** X10.  A search never has more pages than the unfiltered listing, and it has
    no page at all exactly when no row matches. *)
Theorem filtered_pages_at_most_all (st : Store) (query : string) :
  fault st CountFilteredInvoices = None ->
  exists a b : Z,
    run (fetchInvoicesPages st query) = ([], inr (of_int a))
    /\ run (fetchInvoicesPages st "") = ([], inr (of_int b))
    /\ (0 <= a <= b)%Z
    /\ (a = 0%Z <-> matchCount query (tables st) = 0%nat).
Proof.
  intros Hf. do 2 eexists. rewrite !fetchInvoicesPages_run, Hf.
  split; [reflexivity|]. split; [reflexivity|].
  pose proof (ceil_pages (Z.of_nat (matchCount query (tables st)))) as Ha.
  pose proof (ceil_pages (Z.of_nat (matchCount "" (tables st)))) as Hb.
  pose proof (matchCount_le_all query (tables st)) as Hle.
  unfold ITEMS_PER_PAGE in *. lia.
Qed.

(** X11.  Under the data-model invariant the invoice count of the summary cards
    and the paging of the unfiltered listing agree:
    [fetchInvoicesPages("")] is [Math.ceil(numberOfInvoices / 6)]. *)
Theorem card_count_gives_page_count (fmt : Z -> string) (st : Store) :
  referential_integrity (tables st) ->
  fault st CountInvoices = None ->
  fault st CountCustomers = None ->
  fault st SumByStatus = None ->
  fault st CountFilteredInvoices = None ->
  exists card,
    run (fetchCardData fmt st) = ([], inr card)
    /\ run (fetchInvoicesPages st "")
       = ([], inr (Math_ceil
                     (number_div (numberOfInvoices card)
                        (of_int ITEMS_PER_PAGE)))).
Proof.
  intros Hri H1 H2 H3 H4. eexists.
  rewrite fetchCardData_run, H1, H2, H3, fetchInvoicesPages_run, H4.
  split; [reflexivity|].
  cbn [numberOfInvoices]. rewrite Math_ceil_pages.
  now rewrite matchCount_empty_query, (join_length _ Hri).
Qed.

(** X12.  An invoice whose customer does not exist is found by
    [fetchInvoiceById], yet it is on no page of [fetchFilteredInvoices],
    whatever the query, and never among the latest invoices: the inner join
    drops it.  (Invoice ids are taken to be a key.) *)
Theorem orphan_invoice_is_never_listed (fmt : Z -> string) (st : Store)
    (i : Invoice) :
  In i (invoices_table (tables st)) ->
  orphan i (tables st) ->
  NoDup (map invoice_id (invoices_table (tables st))) ->
  (forall query page log rows,
      run (fetchFilteredInvoices st query page) = (log, inr rows) ->
      forall row, In row rows -> it_id row <> invoice_id i)
  /\ (forall log rows,
        run (fetchLatestInvoices fmt st) = (log, inr rows) ->
        forall row, In row rows -> li_id row <> invoice_id i)
  /\ (fault st SelectInvoiceById = None ->
      exists form,
        run (fetchInvoiceById st (invoice_id i)) = ([], inr (Some form))
        /\ if_id form = invoice_id i
        /\ if_customer_id form = customer_id i).
Proof.
  intros Hin Horphan Hnd.
  assert (Hjoin : forall i' c,
             In (i', c) (invoices_join_customers (tables st)) ->
             invoice_id i' <> invoice_id i).
  { intros i' c H E. apply join_In in H as (Hi' & Hc & Hcust).
    assert (i' = i) by (apply (key_determines_row _ _ _ Hnd); auto).
    subst i'. now apply (Horphan c Hc). }
  split; [|split].
  - intros query page log rows Hrun row Hrow.
    destruct (fetchFilteredInvoices_amounts _ _ _ _ _ Hrun row Hrow)
      as (i' & c & Hj & -> & _).
    now apply (Hjoin i' c).
  - intros log rows Hrun row Hrow.
    destruct (fetchLatestInvoices_amounts _ _ _ _ Hrun row Hrow)
      as (i' & c & Hj & -> & _).
    now apply (Hjoin i' c).
  - intros Hf.
    destruct (find_first (invoice_id i) _ i Hin eq_refl)
      as (found & Hfind & Hl & Hid).
    assert (found = i) by (apply (key_determines_row _ _ _ Hnd); auto).
    subst found. eexists.
    rewrite fetchInvoiceById_run, Hf, Hfind. cbn [option_map].
    repeat split.
Qed.

(** X13.  A query that ends in a backslash does not fail: the backslash makes the
    closing [%] of the pattern a literal, so that, for a text [q] without
    pattern characters, the query [q\] keeps exactly the texts that end in
    [q] followed by a percent sign. *)
Theorem trailing_backslash_query (q : string) :
  plain q = true ->
  exists p,
    Sql.pattern (wrap (q ++ "\")) = inr p
    /\ forall x,
         Sql.ilike x p = true
         <-> exists pre,
               Text.fold_case (Text.chars x)
               = (pre ++ Text.fold_case (Text.chars q) ++ ["%"%char])%list.
Proof.
  intros Hq.
  exists (Like.AnyRun :: map Like.Lit (Text.chars q ++ ["%"%char]) ++ [])%list.
  split.
  - unfold Sql.pattern. rewrite chars_wrap, chars_app.
    cbn [Like.compile]. simpl (Ascii.eqb "%" "\"). simpl (Ascii.eqb "%" "%").
    cbv iota. rewrite <- List.app_assoc, (compile_plain _ _ Hq).
    rewrite map_app, List.app_nil_r. reflexivity.
  - intros x. unfold Sql.ilike. rewrite matches_any_run. split.
    + intros (pre & post & E & H).
      apply matches_literals in H as (s1 & s2 & -> & F & H).
      destruct s2; [|discriminate H].
      exists (Text.fold_case pre). rewrite E. unfold Text.fold_case in *.
      rewrite !map_app, F, map_app. simpl. now rewrite List.app_nil_r.
    + intros (pre & E). unfold Text.fold_case in E.
      apply map_eq_app in E as (l1 & l2 & E & <- & F).
      exists l1, l2. split; [exact E|].
      apply matches_literals. exists l2, []. rewrite List.app_nil_r.
      split; [reflexivity|]. split; [|reflexivity].
      unfold Text.fold_case. rewrite F, map_app. reflexivity.
Qed.

Lemma fetchFilteredInvoices_row_origin (st : Store) (query : string)
    (page : Z) (log : list LogLine) (rows : list InvoicesTable) :
  run (fetchFilteredInvoices st query page) = (log, inr rows) ->
  forall row, In row rows ->
    exists i c,
      In (i, c) (invoices_join_customers (tables st))
      /\ row = invoices_table_row (i, c).
Proof.
  destruct (pattern_wrap query) as [p Hp].
  rewrite (fetchFilteredInvoices_run _ _ _ _ Hp).
  destruct (fault st SelectFilteredInvoices); [discriminate|].
  unfold Sql.limit_offset. destruct (_ <? 0)%Z; [discriminate|].
  destruct (_ <? _)%Z; [discriminate|].
  intros E row Hrow. apply returned_inj in E. subst rows.
  apply in_map_iff in Hrow as ([i c] & <- & Hin).
  apply In_firstn, In_skipn in Hin. unfold filtered_invoices_ties in Hin.
  apply order_by_ties_In, filter_In in Hin as [Hin _].
  exists i, c. auto.
Qed.

(** X14.  Opening a listed invoice: for every row a page of
    [fetchFilteredInvoices] shows, [fetchInvoiceById] of the row's id
    returns the same invoice (invoice ids being a key), with the same
    status, and with an amount that is one hundredth of the amount in the
    row. *)
Theorem listed_invoice_lookup (st : Store) (query : string) (page : Z)
    (log : list LogLine) (rows : list InvoicesTable) (row : InvoicesTable) :
  NoDup (map invoice_id (invoices_table (tables st))) ->
  fault st SelectInvoiceById = None ->
  run (fetchFilteredInvoices st query page) = (log, inr rows) ->
  In row rows ->
  exists form q,
    run (fetchInvoiceById st (it_id row)) = ([], inr (Some form))
    /\ if_id form = it_id row
    /\ if_status form = it_status row
    /\ if_amount form = Finite q
    /\ q * inject_Z 100 == inject_Z (it_amount row).
Proof.
  intros Hnd Hf Hrun Hrow.
  destruct (fetchFilteredInvoices_row_origin _ _ _ _ _ Hrun row Hrow)
    as (i & c & Hj & ->).
  apply join_In in Hj as (Hi & _ & _).
  destruct (find_first (invoice_id i) _ i Hi eq_refl)
    as (found & Hfind & Hl & Hid).
  assert (found = i) by (apply (key_determines_row _ _ _ Hnd); auto).
  subst found.
  eexists. exists (inject_Z (amount i) / inject_Z 100)%Q.
  cbn [invoices_table_row it_id it_status it_amount].
  rewrite fetchInvoiceById_run, Hf, Hfind. cbn [option_map].
  repeat split. field.
Qed.

(* ================================================================== *)
(** ** These properties at work on the sample stores *)
(* ================================================================== *)

Lemma sample_customers_distinct :
  NoDup (customers_table (tables Sample.store7)).
Proof. simpl. repeat constructor; simpl; intuition discriminate. Qed.

Lemma db8_invoice_ids_distinct :
  NoDup (map invoice_id (invoices_table (tables More.store8))).
Proof.
  apply (NoDup_map_inv (fun s => nth 1 (Text.chars s) "0"%char)).
  vm_compute. repeat constructor; simpl; intuition discriminate.
Qed.

Lemma stray_is_orphan : orphan More.stray (tables More.store8).
Proof.
  intros c Hc. simpl in Hc.
  repeat (destruct Hc as [<- | Hc]; [discriminate|]). contradiction Hc.
Qed.

Lemma fetchFilteredInvoices_page_size_witness :
  (1 <= 2)%Z
  /\ ((2 - 1) * ITEMS_PER_PAGE <= MAX_SAFE_INTEGER)%Z
  /\ fault Sample.store7 SelectFilteredInvoices = None
  /\ exists rows,
       run (fetchFilteredInvoices Sample.store7 "smith" 2) = ([], inr rows)
       /\ List.length rows
          = Nat.min 6
              (matchCount "smith" (tables Sample.store7)
               - 6 * Z.to_nat (2 - 1))
       /\ (rows = []
           <-> (page_count "smith" (tables Sample.store7) < Z.to_nat 2)%nat).
Proof.
  split; [lia|]. split; [vm_compute; discriminate|]. split; [reflexivity|].
  apply fetchFilteredInvoices_page_size;
    [lia | vm_compute; discriminate | reflexivity].
Defined.



Lemma pages_newest_first_witness :
  (1 <= 1)%Z /\ (1 <= 2)%Z
  /\ fault Sample.store7 SelectFilteredInvoices = None
  /\ StronglySorted newest_first
       (returned_rows (run (fetchFilteredInvoices Sample.store7 "smith" 1)))
  /\ ((1 < 2)%Z ->
      forall a b,
        In a (returned_rows
                (run (fetchFilteredInvoices Sample.store7 "smith" 1))) ->
        In b (returned_rows
                (run (fetchFilteredInvoices Sample.store7 "smith" 2))) ->
        newest_first a b).
Proof.
  split; [lia|]. split; [lia|]. split; [reflexivity|].
  apply pages_newest_first; [lia | lia | reflexivity].
Defined.

Lemma fetchFilteredInvoices_page_below_one_witness :
  (0 < 1)%Z
  /\ fault Sample.store7 SelectFilteredInvoices = None
  /\ run (fetchFilteredInvoices Sample.store7 "smith" 0)
     = ([("Database Error (fetchFilteredInvoices):",
          StorageError "OFFSET must not be negative")],
        inl (Error "Failed to fetch invoices.")).
Proof.
  split; [lia|]. split; [reflexivity|].
  apply fetchFilteredInvoices_page_below_one; [lia | reflexivity].
Defined.

Lemma fetchCustomers_sorted_witness :
  fault Sample.store7 SelectCustomers = None
  /\ exists rows,
       run (fetchCustomers Sample.store7) = ([], inr rows)
       /\ Permutation
            (map (fun c => mkCustomerField (id c) (name c))
               (customers_table (tables Sample.store7)))
            rows
       /\ StronglySorted
            (fun a b => String.leb (cf_name a) (cf_name b) = true) rows.
Proof.
  split; [reflexivity|].
  apply fetchCustomers_sorted. reflexivity.
Defined.

Lemma search_ignores_query_case_witness :
  same_up_to_case "smith" "SMith"
  /\ run (fetchFilteredInvoices Sample.store7 "smith" 1)
     = run (fetchFilteredInvoices Sample.store7 "SMith" 1)
  /\ run (fetchInvoicesPages Sample.store7 "smith")
     = run (fetchInvoicesPages Sample.store7 "SMith")
  /\ run (fetchFilteredCustomers Sample.usd Sample.store7 "smith")
     = run (fetchFilteredCustomers Sample.usd Sample.store7 "SMith").
Proof.
  split; [reflexivity|].
  apply search_ignores_query_case. reflexivity.
Defined.

Lemma fetchFilteredCustomers_totals_witness :
  fault Sample.store7 SelectFilteredCustomers = None
  /\ Sql.pattern (wrap "") = inr [Like.AnyRun; Like.AnyRun]
  /\ NoDup (customers_table (tables Sample.store7))
  /\ In Sample.smith (customers_table (tables Sample.store7))
  /\ passes [Like.AnyRun; Like.AnyRun] Sample.smith = true
  /\ exists rows,
       run (fetchFilteredCustomers Sample.usd Sample.store7 "")
       = ([], inr rows)
       /\ In (customer_row Sample.usd (tables Sample.store7) Sample.smith)
            rows
       /\ ct_total_invoices
            (customer_row Sample.usd (tables Sample.store7) Sample.smith)
          = Z.of_nat
              (List.length (invoices_of Sample.smith (tables Sample.store7)))
       /\ ct_total_pending
            (customer_row Sample.usd (tables Sample.store7) Sample.smith)
          = Sample.usd 0%Z
       /\ ct_total_paid
            (customer_row Sample.usd (tables Sample.store7) Sample.smith)
          = Sample.usd 0%Z.
Proof.
  do 2 (split; [reflexivity|]). split; [exact sample_customers_distinct|].
  split; [simpl; tauto|]. split; [reflexivity|].
  apply (fetchFilteredCustomers_totals Sample.usd Sample.store7 ""
           [Like.AnyRun; Like.AnyRun] Sample.smith);
    [reflexivity | reflexivity | exact sample_customers_distinct
    | simpl; tauto | reflexivity].
Defined.

Lemma fetchFilteredCustomers_listing_witness :
  fault Sample.store7 SelectFilteredCustomers = None
  /\ Sql.pattern (wrap "") = inr [Like.AnyRun; Like.AnyRun]
  /\ exists rows,
       run (fetchFilteredCustomers Sample.usd Sample.store7 "")
       = ([], inr rows)
       /\ NoDup (map row_customer rows)
       /\ (forall c,
             In c (map row_customer rows)
             <-> In c (customers_table (tables Sample.store7))
                 /\ passes [Like.AnyRun; Like.AnyRun] c = true)
       /\ StronglySorted
            (fun a b => String.leb (ct_name a) (ct_name b) = true) rows.
Proof.
  do 2 (split; [reflexivity|]).
  apply (fetchFilteredCustomers_listing Sample.usd Sample.store7 ""
           [Like.AnyRun; Like.AnyRun]); reflexivity.
Defined.

Lemma call_returns_iff_store_answers_witness :
  page_ok (CallFilteredInvoices "smith" 1)
  /\ (outcome Sample.usd (CallFilteredInvoices "smith" 1) Sample.store7
      = ([], None)
      <-> forall s,
            In s (statements_of (CallFilteredInvoices "smith" 1)) ->
            fault Sample.store7 s = None).
Proof.
  assert (H : page_ok (CallFilteredInvoices "smith" 1))
    by (split; [lia | vm_compute; discriminate]).
  split; [exact H|].
  apply (call_returns_iff_store_answers Sample.usd
           (CallFilteredInvoices "smith" 1) Sample.store7 H).
Defined.

Lemma filtered_pages_at_most_all_witness :
  fault Sample.store7 CountFilteredInvoices = None
  /\ exists a b : Z,
       run (fetchInvoicesPages Sample.store7 "paid") = ([], inr (of_int a))
       /\ run (fetchInvoicesPages Sample.store7 "") = ([], inr (of_int b))
       /\ (0 <= a <= b)%Z
       /\ (a = 0%Z <-> matchCount "paid" (tables Sample.store7) = 0%nat).
Proof.
  split; [reflexivity|].
  apply filtered_pages_at_most_all. reflexivity.
Defined.

Lemma card_count_gives_page_count_witness :
  referential_integrity (tables Sample.store7)
  /\ fault Sample.store7 CountInvoices = None
  /\ fault Sample.store7 CountCustomers = None
  /\ fault Sample.store7 SumByStatus = None
  /\ fault Sample.store7 CountFilteredInvoices = None
  /\ exists card,
       run (fetchCardData Sample.usd Sample.store7) = ([], inr card)
       /\ run (fetchInvoicesPages Sample.store7 "")
          = ([], inr (Math_ceil
                        (number_div (numberOfInvoices card)
                           (of_int ITEMS_PER_PAGE)))).
Proof.
  split; [exact db7_integrity|]. do 4 (split; [reflexivity|]).
  apply (card_count_gives_page_count Sample.usd Sample.store7 db7_integrity);
    reflexivity.
Defined.

Lemma orphan_invoice_is_never_listed_witness :
  In More.stray (invoices_table (tables More.store8))
  /\ orphan More.stray (tables More.store8)
  /\ NoDup (map invoice_id (invoices_table (tables More.store8)))
  /\ (forall query page log rows,
        run (fetchFilteredInvoices More.store8 query page) = (log, inr rows) ->
        forall row, In row rows -> it_id row <> invoice_id More.stray)
  /\ (forall log rows,
        run (fetchLatestInvoices Sample.usd More.store8) = (log, inr rows) ->
        forall row, In row rows -> li_id row <> invoice_id More.stray)
  /\ (fault More.store8 SelectInvoiceById = None ->
      exists form,
        run (fetchInvoiceById More.store8 (invoice_id More.stray))
        = ([], inr (Some form))
        /\ if_id form = invoice_id More.stray
        /\ if_customer_id form = customer_id More.stray).
Proof.
  assert (Hin : In More.stray (invoices_table (tables More.store8)))
    by (simpl; tauto).
  split; [exact Hin|]. split; [exact stray_is_orphan|].
  split; [exact db8_invoice_ids_distinct|].
  apply (orphan_invoice_is_never_listed Sample.usd More.store8 More.stray
           Hin stray_is_orphan db8_invoice_ids_distinct).
Defined.

Lemma trailing_backslash_query_witness :
  plain "50" = true
  /\ exists p,
       Sql.pattern (wrap ("50" ++ "\")) = inr p
       /\ forall x,
            Sql.ilike x p = true
            <-> exists pre,
                  Text.fold_case (Text.chars x)
                  = (pre ++ Text.fold_case (Text.chars "50")
                       ++ ["%"%char])%list.
Proof.
  split; [reflexivity|].
  apply (trailing_backslash_query "50"). reflexivity.
Defined.

Lemma listed_invoice_lookup_witness :
  NoDup (map invoice_id (invoices_table (tables More.store8)))
  /\ fault More.store8 SelectInvoiceById = None
  /\ run (fetchFilteredInvoices More.store8 "canceled" 1)
     = ([], inr [invoices_table_row
                   (Sample.inv 7 666 5 canceled, Sample.smith)])
  /\ In (invoices_table_row (Sample.inv 7 666 5 canceled, Sample.smith))
       [invoices_table_row (Sample.inv 7 666 5 canceled, Sample.smith)]
  /\ exists form q,
       run (fetchInvoiceById More.store8
              (it_id (invoices_table_row
                        (Sample.inv 7 666 5 canceled, Sample.smith))))
       = ([], inr (Some form))
       /\ if_id form
          = it_id (invoices_table_row
                     (Sample.inv 7 666 5 canceled, Sample.smith))
       /\ if_status form
          = it_status (invoices_table_row
                         (Sample.inv 7 666 5 canceled, Sample.smith))
       /\ if_amount form = Finite q
       /\ q * inject_Z 100
          == inject_Z
               (it_amount (invoices_table_row
                             (Sample.inv 7 666 5 canceled, Sample.smith))).
Proof.
  split; [exact db8_invoice_ids_distinct|]. split; [reflexivity|].
  split; [reflexivity|]. split; [simpl; tauto|].
  apply (listed_invoice_lookup More.store8 "canceled" 1 []
           [invoices_table_row (Sample.inv 7 666 5 canceled, Sample.smith)]
           (invoices_table_row (Sample.inv 7 666 5 canceled, Sample.smith))
           db8_invoice_ids_distinct);
    [reflexivity | reflexivity | simpl; tauto].
Defined.

(** The same listing on two stores that differ only in how they order rows
    of equal date: invoices [i2] and [i6], both of 9 March, swap places. *)
Example equal_dates_in_either_order :
  map it_id
    (returned_rows (run (fetchFilteredInvoices Sample.store7 "smith" 1)))
  = ["i2"; "i6"; "i4"; "i7"; "i1"; "i5"]
  /\ map it_id
       (returned_rows (run (fetchFilteredInvoices More.store7r "smith" 1)))
     = ["i6"; "i2"; "i4"; "i7"; "i1"; "i5"].
Proof. split; reflexivity. Qed.

(** Of two statements of [fetchCardData] that fail, the one that fails
    first is the one logged. *)
Example first_rejection_is_logged :
  run (fetchCardData Sample.usd More.store7late)
  = ([("Database Error (fetchCardData):", StorageError "connection reset")],
     inl (Error "Failed to fetch card data.")).
Proof. reflexivity. Qed.

(** Anna Smith has seven invoices, pending and paid; her totals in the
    customer table are nevertheless the formatted zero. *)
Example totals_of_smith :
  run (fetchFilteredCustomers Sample.usd Sample.store7 "smith")
  = ([], inr [mkCustomersTableType "c1" "Anna Smith" "anna@smith.example"
                None 7 "$0.00" "$0.00"]).
Proof. reflexivity. Qed.
